(** * Data-collection pipeline: a shallow embedding of
      [Data-collection-pipeline.py] and the properties of its file-name
      normaliser, checkpoint store, response parser, extraction client and
      orchestrator.

    Python values are modelled as follows.
    - [str] is a list of Unicode code points ([N]); [py "..."] writes an
      ASCII literal.
    - [int] arguments that the code slices or compares with are [Z].
    - A [dict] is an association list in insertion order ([dict_set] keeps
      the position of a key that is already there, as CPython does).
    - Exceptions are values of [Exc]; loops that Python writes as [while]
      take a fuel argument and return [None] when the fuel is used up.
    - The file system, the checkpoint file, the clock reads and the calls to
      the extraction service are fields of [World], threaded through the
      monad [M]. *)

From Stdlib Require Import String Ascii.
From Stdlib Require Import List NArith ZArith Lia Bool.
From Stdlib Require Import Permutation.
From Stdlib Require Decimal DecimalString DecimalNat FinFun.
Import ListNotations.
Local Open Scope list_scope.

(* ================================================================= *)
(** ** Python strings *)

Module PyStr.

Definition char := N.
Definition str := list char.

(** An ASCII literal as a Python string. *)
Definition py (s : string) : str := map N_of_ascii (list_ascii_of_string s).

Definition space : char := 32%N.

Fixpoint str_eqb (a b : str) : bool :=
  match a, b with
  | [], [] => true
  | x :: a', y :: b' => N.eqb x y && str_eqb a' b'
  | _, _ => false
  end.

(** [c in chars] for a one-character [c]. *)
Definition char_in (chars : str) (c : char) : bool := existsb (N.eqb c) chars.

(** [str.isspace] on one code point: the set CPython's
    [_PyUnicode_IsWhitespace] accepts; [\s] of [re] on a [str] pattern and
    [str.strip()] use the same set. *)
Definition isspace (c : char) : bool :=
  (((9 <=? c) && (c <=? 13)) || ((28 <=? c) && (c <=? 32))
   || (c =? 133) || (c =? 160) || (c =? 5760)
   || ((8192 <=? c) && (c <=? 8202))
   || (c =? 8232) || (c =? 8233) || (c =? 8239) || (c =? 8287)
   || (c =? 12288))%N.

Fixpoint dropwhile (p : char -> bool) (s : str) : str :=
  match s with
  | [] => []
  | c :: s' => if p c then dropwhile p s' else s
  end.

Definition lstrip_by (p : char -> bool) (s : str) : str := dropwhile p s.
Definition rstrip_by (p : char -> bool) (s : str) : str :=
  rev (dropwhile p (rev s)).

(** [s.strip()] and [s.strip(chars)]. *)
Definition strip (s : str) : str := rstrip_by isspace (lstrip_by isspace s).
Definition strip_chars (chars s : str) : str :=
  rstrip_by (char_in chars) (lstrip_by (char_in chars) s).

(** [s.replace(c, e)] for a one-character [c] and the empty string [e]. *)
Definition remove_char (c : char) (s : str) : str :=
  filter (fun x => negb (N.eqb x c)) s.

(** [re.sub(r"\s+", " ", s)]: every maximal run of white space becomes one
    space.  [in_run] tells that the previous character was white space. *)
Fixpoint sub_spaces (in_run : bool) (s : str) : str :=
  match s with
  | [] => []
  | c :: s' =>
      if isspace c
      then (if in_run then sub_spaces true s' else space :: sub_spaces true s')
      else c :: sub_spaces false s'
  end.

(** [s.encode("ascii", "ignore").decode("ascii")]. *)
Definition ascii_ignore (s : str) : str := filter (fun c => (c <? 128)%N) s.

(** [s[:n]] for a Python [int] [n], on a [str] or a [list]; a negative [n]
    counts from the end. *)
Definition slice_to {A : Type} (s : list A) (n : Z) : list A :=
  if (n <? 0)%Z
  then firstn (Z.to_nat (Z.max 0 (Z.of_nat (length s) + n))) s
  else firstn (Z.to_nat n) s.

(** [s.rsplit(" ", 1)[0]]: what stands before the last space, or [s] when it
    has no space. *)
Definition rsplit1_head (s : str) : str :=
  if char_in s space
  then rev (tl (dropwhile (fun c => negb (N.eqb c space)) (rev s)))
  else s.

(** [s.startswith(pre)] and [sub in s]. *)
Fixpoint startswith (s pre : str) : bool :=
  match pre, s with
  | [], _ => true
  | p :: pre', c :: s' => N.eqb p c && startswith s' pre'
  | _ :: _, [] => false
  end.

Fixpoint contains (sub s : str) {struct s} : bool :=
  match s with
  | [] => startswith [] sub
  | _ :: s' => startswith s sub || contains sub s'
  end.

Definition endswith (s suf : str) : bool := startswith (rev s) (rev suf).

(** [s.split(sep)] for a non-empty [sep]: occurrences are found left to
    right and do not overlap.  [acc] is the current piece, reversed; [skip]
    counts the characters of a separator still to pass over. *)
Fixpoint split_go (sep : str) (acc : str) (skip : nat) (s : str) : list str :=
  match s with
  | [] => [rev acc]
  | c :: s' =>
      match skip with
      | S k => split_go sep acc k s'
      | O =>
          if startswith s sep
          then rev acc :: split_go sep [] (length sep - 1) s'
          else split_go sep (c :: acc) 0 s'
      end
  end.

Definition split (s sep : str) : list str := split_go sep [] 0 s.

(** [a < b] on [str]: lexicographic on code points. *)
Fixpoint str_ltb (a b : str) : bool :=
  match a, b with
  | _, [] => false
  | [], _ :: _ => true
  | x :: a', y :: b' => N.ltb x y || (N.eqb x y && str_ltb a' b')
  end.

(** [s.rfind(c)] for a one-character [c]: the index of its last occurrence. *)
Fixpoint rfind (c : char) (s : str) : option nat :=
  match s with
  | [] => None
  | x :: s' =>
      match rfind c s' with
      | Some i => Some (S i)
      | None => if N.eqb x c then Some 0 else None
      end
  end.

(** [str(n)] for a non-negative [int]. *)
Definition str_of_nat (n : nat) : str :=
  py (DecimalString.NilEmpty.string_of_uint (Nat.to_uint n)).

End PyStr.
Import PyStr.

(* ================================================================= *)
(** ** FilenameNormalizer: [clean_filename] *)

Module FilenameNormalizer.

(** [invalid_chars]: the nine characters less-than, greater-than, colon,
    double quote, slash, backslash, bar, question mark and star, as code
    points. *)
Definition invalid_chars : str := [60; 62; 58; 34; 47; 92; 124; 63; 42]%N.

(** The loop [for char in invalid_chars] that deletes every occurrence of
    [char] from [text]. *)
Definition remove_invalid (text : str) : str :=
  fold_left (fun t c => remove_char c t) invalid_chars text.

Section Clean.

(** [unicodedata.normalize("NFKD", .)], a table of the Unicode database. *)
Variable normalize : str -> str.

(** Lines 38 to 44: the text before the length test. *)
Definition cleaned_text (text : str) : str :=
  let text := normalize text in
  let text := ascii_ignore text in
  let text := remove_invalid text in
  let text := strip (sub_spaces false text) in
  strip_chars (py ". ") text.

Definition clean_filename (text : str) (max_len : Z) : str :=
  let text := cleaned_text text in
  let text :=
    if (Z.of_nat (length text) >? max_len)%Z
    then rsplit1_head (slice_to text max_len)
    else text in
  match text with
  | [] => py "Untitled"
  | _ => text
  end.

End Clean.

End FilenameNormalizer.
Import FilenameNormalizer.

(* ================================================================= *)
(** ** Values: exceptions, dictionaries, JSON, paths *)

Module PyData.

(** The outcome of a call that may raise: [Raise msg] carries [str(e)]. *)
Inductive Exc (A : Type) : Type :=
| Ok (a : A)
| Raise (msg : str).
Arguments Ok {A} a.
Arguments Raise {A} msg.

(** A [dict] with [str] keys, in insertion order. *)
Definition dict (V : Type) : Type := list (str * V).

Fixpoint dict_get {V : Type} (d : dict V) (k : str) : option V :=
  match d with
  | [] => None
  | (k', v) :: d' => if str_eqb k' k then Some v else dict_get d' k
  end.

(** [d[k] = v]: a key already there keeps its position. *)
Fixpoint dict_set {V : Type} (d : dict V) (k : str) (v : V) : dict V :=
  match d with
  | [] => [(k, v)]
  | (k', v') :: d' =>
      if str_eqb k' k then (k', v) :: d' else (k', v') :: dict_set d' k v
  end.

(** [{**d, **e}]: the entries of [e] are set one after the other on a copy
    of [d]. *)
Definition dict_merge {V : Type} (d e : dict V) : dict V :=
  fold_left (fun acc kv => dict_set acc (fst kv) (snd kv)) e d.

Definition keys {V : Type} (d : dict V) : list str := map fst d.

(** What [json.loads] returns. *)
#[local] Unset Elimination Schemes.
Inductive Json : Type :=
| JNull
| JBool (b : bool)
| JInt (z : Z)
| JFloat (literal : str)
| JString (s : str)
| JList (l : list Json)
| JDict (d : list (str * Json)).
#[local] Set Elimination Schemes.

(** [type(v).__name__]. *)
Definition type_name (v : Json) : str :=
  match v with
  | JNull => py "NoneType"
  | JBool _ => py "bool"
  | JInt _ => py "int"
  | JFloat _ => py "float"
  | JString _ => py "str"
  | JList _ => py "list"
  | JDict _ => py "dict"
  end.

(** A [pathlib.Path]: the directory and the final component. *)
Record Path : Type := mkPath { parent : str; name : str }.

Definition Path_eqb (p q : Path) : bool :=
  str_eqb (parent p) (parent q) && str_eqb (name p) (name q).

(** [p < q], as [sorted] uses it. *)
Definition Path_ltb (p q : Path) : bool :=
  str_ltb (parent p) (parent q)
  || (str_eqb (parent p) (parent q) && str_ltb (name p) (name q)).

(** [dir / name]. *)
Definition joinpath (dir name : str) : Path := mkPath dir name.

(** [Path.stem] and [Path.suffix]: the name is cut at its last dot unless
    that dot is the first or the last character. *)
Definition split_suffix (name : str) : str * str :=
  match rfind 46%N name with
  | Some i =>
      if (0 <? i) && (i <? length name - 1)
      then (firstn i name, skipn i name)
      else (name, [])
  | None => (name, [])
  end.

Definition stem (p : Path) : str := fst (split_suffix (name p)).
Definition suffix (p : Path) : str := snd (split_suffix (name p)).

(** [sorted(paths)]: a stable insertion sort. *)
Fixpoint insert_sorted (p : Path) (l : list Path) : list Path :=
  match l with
  | [] => [p]
  | q :: l' => if Path_ltb q p then q :: insert_sorted p l' else p :: q :: l'
  end.

Definition sorted (l : list Path) : list Path := fold_right insert_sorted [] l.

End PyData.
Import PyData.

(* ================================================================= *)
(** ** The world the pipeline runs in *)

Module Pipeline.

(** *** The checkpoint *)

Record FailRecord : Type :=
  mkFail { pdf : str; error : str; failed_at : str }.

Record Stat : Type := mkStat { num_records : nat; processed_at : str }.

Record Checkpoint : Type := mkCheckpoint {
  processed : list str;
  failed : list FailRecord;
  stats : dict Stat
}.

(** [{'processed': [], 'failed': [], 'stats': {}}] *)
Definition empty_checkpoint : Checkpoint := mkCheckpoint [] [] [].

(** *** Rename log and output artifacts *)

Record RenameEntry : Type := mkRename {
  original_name : str;
  doi : option str;
  title : str;
  renamed_at : str
}.

Inductive Artifact : Type :=
| TextFile (text : str)
| JsonFile (records : list (dict Json))
| ExcelFile (records : list (dict Json)).

(** *** The extraction service *)

(** [uploaded_file.state.name] *)
Inductive FileState : Type := STATE_UNSPECIFIED | PROCESSING | ACTIVE | FAILED.

Definition is_processing (s : FileState) : bool :=
  match s with PROCESSING => true | _ => false end.
Definition is_failed (s : FileState) : bool :=
  match s with FAILED => true | _ => false end.

(** How the service answers for one submitted document: the state
    [genai.upload_file] returns, the state the k-th [genai.get_file] returns
    (k = 1, 2, ...), what [generate_content] returns (or the exception it
    raises, the 300-second request time-out included), what
    [genai.delete_file] does, and what [response.text] gives. *)
Record Submission : Type := mkSubmission {
  upload_file : Exc FileState;
  get_file : nat -> Exc FileState;
  generate_content : Exc (Exc str);
  delete_file : Exc unit
}.

(** The state the client sees at its i-th look: the upload's answer first,
    then the answers of the polls. *)
Definition reported (sub : Submission) (i : nat) : Exc FileState :=
  match i with
  | O => upload_file sub
  | S _ => get_file sub i
  end.

(** *** What the program does not compute itself *)

Record Externals : Type := mkExternals {
  (** [unicodedata.normalize("NFKD", .)] *)
  normalize : str -> str;
  (** [\d] of [re] on a [str]: a decimal digit of the Unicode database *)
  isdecimal : char -> bool;
  (** [extract_doi_and_title] on the bytes of a document (PyMuPDF and the
      heuristics of lines 50 to 146) *)
  pdf_analysis : str -> option str * str;
  (** [datetime.now().isoformat()] at the n-th reading of the clock *)
  clock : nat -> str;
  (** [json.loads] *)
  json_loads : str -> Exc Json;
  (** the service's behaviour for the n-th upload, of the given document *)
  service : nat -> Path -> Submission;
  (** whether [DataFrame(...).to_excel(...)] succeeds *)
  to_excel : list (dict Json) -> bool
}.

(** The constructor's arguments and the module-level [HAS_PYMUPDF]. *)
Record Config : Type := mkConfig {
  target_dir : str;
  provider : str;
  rename_pdfs : bool;
  debug_mode : bool;
  HAS_PYMUPDF : bool
}.

(** *** State *)

Record World : Type := mkWorld {
  (** the documents on disk: path and bytes *)
  fs : list (Path * str);
  (** [self.checkpoint] *)
  checkpoint : Checkpoint;
  (** the contents of [pipeline_checkpoint.json], if the file exists *)
  checkpoint_file : option Checkpoint;
  (** the contents of [renamed_files.json], if the file exists *)
  renamed_log : option (dict RenameEntry);
  (** the files written under [output/], latest first *)
  outputs : list (Path * Artifact);
  (** the documents uploaded to the service, latest first *)
  uploads : list Path;
  (** the seconds spent in [time.sleep] *)
  slept : nat;
  (** how often the clock was read *)
  clock_reads : nat
}.

Definition set_fs (w : World) (v : list (Path * str)) : World :=
  mkWorld v (checkpoint w) (checkpoint_file w) (renamed_log w) (outputs w)
          (uploads w) (slept w) (clock_reads w).
Definition set_checkpoint (w : World) (v : Checkpoint) : World :=
  mkWorld (fs w) v (checkpoint_file w) (renamed_log w) (outputs w)
          (uploads w) (slept w) (clock_reads w).
Definition set_checkpoint_file (w : World) (v : option Checkpoint) : World :=
  mkWorld (fs w) (checkpoint w) v (renamed_log w) (outputs w)
          (uploads w) (slept w) (clock_reads w).
Definition set_renamed_log (w : World) (v : option (dict RenameEntry)) : World :=
  mkWorld (fs w) (checkpoint w) (checkpoint_file w) v (outputs w)
          (uploads w) (slept w) (clock_reads w).
Definition set_outputs (w : World) (v : list (Path * Artifact)) : World :=
  mkWorld (fs w) (checkpoint w) (checkpoint_file w) (renamed_log w) v
          (uploads w) (slept w) (clock_reads w).
Definition set_uploads (w : World) (v : list Path) : World :=
  mkWorld (fs w) (checkpoint w) (checkpoint_file w) (renamed_log w) (outputs w)
          v (slept w) (clock_reads w).
Definition set_slept (w : World) (v : nat) : World :=
  mkWorld (fs w) (checkpoint w) (checkpoint_file w) (renamed_log w) (outputs w)
          (uploads w) v (clock_reads w).
Definition set_clock_reads (w : World) (v : nat) : World :=
  mkWorld (fs w) (checkpoint w) (checkpoint_file w) (renamed_log w) (outputs w)
          (uploads w) (slept w) v.

(** *** The monad: state, and [None] for a loop that is still running when
    the fuel is used up *)

Definition M (A : Type) : Type := World -> option (A * World).

Definition ret {A : Type} (a : A) : M A := fun w => Some (a, w).

Definition bind {A B : Type} (m : M A) (k : A -> M B) : M B :=
  fun w => match m w with
           | None => None
           | Some (a, w') => k a w'
           end.

Definition out_of_fuel {A : Type} : M A := fun _ => None.

Definition gets {A : Type} (f : World -> A) : M A := fun w => Some (f w, w).
Definition modify (f : World -> World) : M unit := fun w => Some (tt, f w).

End Pipeline.
Import Pipeline.

Declare Scope monad_scope.
Delimit Scope monad_scope with monad.
Notation "x <- m ;; k" := (bind m (fun x => k))
  (at level 61, m at next level, right associativity) : monad_scope.
Notation "m ;;; k" := (bind m (fun _ => k))
  (at level 61, right associativity) : monad_scope.
Notation "x <-! m ;; k" :=
  (bind m (fun r => match r with
                    | Ok x => k
                    | Raise msg => ret (Raise msg)
                    end))
  (at level 61, m at next level, right associativity) : monad_scope.
Local Open Scope monad_scope.
(* ================================================================= *)
(** ** The operations of [Data-collection-pipeline.py] *)

Module Ops.

(** *** File system *)

Definition fs_lookup (p : Path) (files : list (Path * str)) : option str :=
  option_map snd (find (fun e => Path_eqb (fst e) p) files).

(** [p.exists()] *)
Definition path_exists (p : Path) : M bool :=
  gets (fun w => existsb (fun e => Path_eqb (fst e) p) (fs w)).

(** The entries of [files] once [src] has been renamed to [dst]: an entry
    already at [dst] is replaced. *)
Definition fs_rename (src dst : Path) (files : list (Path * str))
  : list (Path * str) :=
  map (fun e => if Path_eqb (fst e) src then (dst, snd e) else e)
      (filter (fun e => negb (Path_eqb (fst e) dst) || Path_eqb (fst e) src)
              files).

(** [src.rename(dst)]: raises when [src] is not there. *)
Definition rename (src dst : Path) : M (Exc unit) :=
  ex <- path_exists src ;;
  if ex
  then modify (fun w => set_fs w (fs_rename src dst (fs w))) ;;; ret (Ok tt)
  else ret (Raise (py "[Errno 2] No such file or directory")).

(** [list(dir.glob("*.pdf"))], in the order the directory lists them. *)
Definition glob_pdf (dir : str) : M (list Path) :=
  gets (fun w =>
          filter (fun p => str_eqb (parent p) dir && endswith (name p) (py ".pdf"))
                 (map fst (fs w))).

(** [open(path, "w")] followed by a write, under [output/]. *)
Definition write_output (p : Path) (a : Artifact) : M unit :=
  modify (fun w => set_outputs w ((p, a) :: outputs w)).

(** [time.sleep(n)] *)
Definition sleep (n : nat) : M unit :=
  modify (fun w => set_slept w (slept w + n)).

(** *** [get_unique_path] (lines 149 to 161) *)

(** [parent / f"{base_name} ({counter}){extension}"] *)
Definition numbered (path : Path) (counter : nat) : Path :=
  joinpath (parent path)
           (stem path ++ py " (" ++ str_of_nat counter ++ py ")" ++ suffix path).

(** The [while True] loop, [fuel] turns of it at most. *)
Fixpoint first_free (fuel : nat) (path : Path) (counter : nat) : M Path :=
  match fuel with
  | O => out_of_fuel
  | S fuel' =>
      let new_path := numbered path counter in
      ex <- path_exists new_path ;;
      if negb ex then ret new_path else first_free fuel' path (S counter)
  end.

Definition get_unique_path (fuel : nat) (path : Path) : M Path :=
  ex <- path_exists path ;;
  if negb ex then ret path else first_free fuel path 2.

Section WithExternals.

Variable cfg : Config.
Variable ext : Externals.

Definition input_dir : str := target_dir cfg.
Definition output_dir : str := target_dir cfg ++ py "/output".
Definition processed_dir : str := target_dir cfg ++ py "/processed_pdfs".

(** [datetime.now().isoformat()] *)
Definition datetime_now : M str :=
  fun w => Some (clock ext (clock_reads w), set_clock_reads w (S (clock_reads w))).

(** *** CheckpointStore (lines 265 to 294) *)

Definition _load_checkpoint : M Checkpoint :=
  gets (fun w => match checkpoint_file w with
                 | Some c => c
                 | None => empty_checkpoint
                 end).

Definition _save_checkpoint : M unit :=
  modify (fun w => set_checkpoint_file w (Some (checkpoint w))).

Definition _is_processed (pdf_name : str) : M bool :=
  gets (fun w => existsb (str_eqb pdf_name) (processed (checkpoint w))).

Definition _mark_processed (pdf_name : str) (num_records : nat) : M unit :=
  modify (fun w =>
            let c := checkpoint w in
            if existsb (str_eqb pdf_name) (processed c) then w
            else set_checkpoint w
                   (mkCheckpoint (processed c ++ [pdf_name]) (failed c) (stats c))) ;;;
  now <- datetime_now ;;
  modify (fun w =>
            let c := checkpoint w in
            set_checkpoint w
              (mkCheckpoint (processed c) (failed c)
                            (dict_set (stats c) pdf_name (mkStat num_records now)))) ;;;
  _save_checkpoint.

Definition _mark_failed (pdf_name : str) (error : str) : M unit :=
  now <- datetime_now ;;
  modify (fun w =>
            let c := checkpoint w in
            set_checkpoint w
              (mkCheckpoint (processed c)
                            (failed c ++ [mkFail pdf_name error now])
                            (stats c))) ;;;
  _save_checkpoint.

(** A state-changing call of the store, and a sequence of them. *)
Inductive CheckpointCall : Type :=
| MarkProcessed (pdf_name : str) (num_records : nat)
| MarkFailed (pdf_name : str) (error : str).

Definition call (c : CheckpointCall) : M unit :=
  match c with
  | MarkProcessed pdf_name num_records => _mark_processed pdf_name num_records
  | MarkFailed pdf_name error => _mark_failed pdf_name error
  end.

Fixpoint calls (cs : list CheckpointCall) : M unit :=
  match cs with
  | [] => ret tt
  | c :: cs' => call c ;;; calls cs'
  end.

(** The [(document, error)] pairs a sequence of calls reports as failed. *)
Fixpoint failures_of (cs : list CheckpointCall) : list (str * str) :=
  match cs with
  | [] => []
  | MarkFailed pdf_name error :: cs' => (pdf_name, error) :: failures_of cs'
  | MarkProcessed _ _ :: cs' => failures_of cs'
  end.

(** *** The rename pass (lines 312 to 365) *)

(** [re.match(r"^10\.\d{4,9}", name)]: the name starts with [10.] and four
    decimal digits. *)
Definition matches_doi_prefix (name : str) : bool :=
  match name with
  | 49%N :: 48%N :: 46%N :: d1 :: d2 :: d3 :: d4 :: _ =>
      isdecimal ext d1 && isdecimal ext d2 && isdecimal ext d3 && isdecimal ext d4
  | _ => false
  end.

(** [extract_doi_and_title(pdf_path)]: every error while reading the
    document is caught and gives no identifier and the title [Untitled]. *)
Definition extract_doi_and_title (pdf_path : Path) : M (option str * str) :=
  gets (fun w => match fs_lookup pdf_path (fs w) with
                 | Some bytes => pdf_analysis ext bytes
                 | None => (None, py "Untitled")
                 end).

(** Lines 339 to 345: the canonical name. *)
Definition canonical_name (doi : option str) (title : str) : str :=
  match doi with
  | Some ((_ :: _) as d) =>
      let doi_clean := clean_filename (normalize ext) d 50 in
      let title_clean := clean_filename (normalize ext) title 100 in
      doi_clean ++ py " - " ++ title_clean ++ py ".pdf"
  | _ =>
      let title_clean := clean_filename (normalize ext) title 150 in
      py "NO_DOI - " ++ title_clean ++ py ".pdf"
  end.

Definition _load_rename_log : M (dict RenameEntry) :=
  gets (fun w => match renamed_log w with Some l => l | None => [] end).

Definition _save_rename_log (log : dict RenameEntry) : M unit :=
  modify (fun w => set_renamed_log w (Some log)).

(** Line 347: the free path for the canonical name. *)
Definition rename_target (fuel : nat) (dt : option str * str) : M Path :=
  let new_name := canonical_name (fst dt) (snd dt) in
  get_unique_path fuel (joinpath input_dir new_name).

(** The body of the [for] loop for one document; [acc] is
    [(rename_log, renamed_count)]. *)
Definition rename_one (fuel : nat) (pdf_path : Path)
    (acc : dict RenameEntry * nat) : M (dict RenameEntry * nat) :=
  let original_name := name pdf_path in
  if matches_doi_prefix original_name then ret acc
  else
    dt <- extract_doi_and_title pdf_path ;;
    new_path <- rename_target fuel dt ;;
    r <- rename pdf_path new_path ;;
    match r with
    | Raise _ => ret acc
    | Ok _ =>
        now <- datetime_now ;;
        ret (dict_set (fst acc) (name new_path)
                      (mkRename original_name (fst dt) (snd dt) now),
             S (snd acc))
    end.

Fixpoint rename_loop (fuel : nat) (pdf_files : list Path)
    (acc : dict RenameEntry * nat) : M (dict RenameEntry * nat) :=
  match pdf_files with
  | [] => ret acc
  | pdf_path :: rest =>
      acc' <- rename_one fuel pdf_path acc ;;
      rename_loop fuel rest acc'
  end.

Definition rename_input_pdfs (fuel : nat) : M nat :=
  if negb (rename_pdfs cfg) then ret 0
  else if negb (HAS_PYMUPDF cfg) then ret 0
  else
    pdf_files <- glob_pdf input_dir ;;
    match pdf_files with
    | [] => ret 0
    | _ =>
        rename_log <- _load_rename_log ;;
        acc <- rename_loop fuel pdf_files (rename_log, 0) ;;
        (if 0 <? snd acc then _save_rename_log (fst acc) else ret tt) ;;;
        ret (snd acc)
    end.

(** *** ExtractionClient: [_process_with_gemini] (lines 367 to 391) *)

(** The wait loop of lines 374 to 376: [k] polls have been made and the
    last one reported [state]. *)
Fixpoint wait_while_processing (fuel : nat) (sub : Submission) (k : nat)
    (state : FileState) : M (Exc FileState) :=
  if is_processing state then
    match fuel with
    | O => out_of_fuel
    | S fuel' =>
        sleep 1 ;;;
        st <-! ret (get_file sub (S k)) ;;
        wait_while_processing fuel' sub (S k) st
    end
  else ret (Ok state).

Definition _process_with_gemini (fuel : nat) (pdf_path : Path) : M (Exc str) :=
  n <- gets (fun w => length (uploads w)) ;;
  modify (fun w => set_uploads w (pdf_path :: uploads w)) ;;;
  let sub := service ext n pdf_path in
  uploaded <-! ret (upload_file sub) ;;
  state <-! wait_while_processing fuel sub 0 uploaded ;;
  if is_failed state then ret (Raise (py "Gemini processing failed state"))
  else
    response <-! ret (generate_content sub) ;;
    _ <-! ret (delete_file sub) ;;
    ret response.

(** *** ResponseParser (lines 416 to 439) *)

Definition fence : str := py "```".
Definition json_fence : str := py "```json".

(** Lines 416 to 420. *)
Definition strip_fences (response_text : str) : str :=
  let cleaned_text := strip response_text in
  if contains json_fence cleaned_text
  then strip (nth 0 (split (nth 1 (split cleaned_text json_fence) []) fence) [])
  else if contains fence cleaned_text
  then strip (nth 0 (split (nth 1 (split cleaned_text fence) []) fence) [])
  else cleaned_text.

(** Lines 424 to 427. *)
Definition as_list (materials : Json) : Exc (list Json) :=
  match materials with
  | JList l => Ok l
  | JDict d => Ok [JDict d]
  | _ => Raise (py "Output is not a valid JSON list")
  end.

(** Lines 416 to 427. *)
Definition parse_response (response_text : str) : Exc (list Json) :=
  match json_loads ext (strip_fences response_text) with
  | Raise msg => Raise msg
  | Ok materials => as_list materials
  end.

(** The provenance fields of lines 431 to 435. *)
Definition metadata (pdf_name now : str) : dict Json :=
  [ (py "source_pdf", JString pdf_name);
    (py "extracted_at", JString now);
    (py "provider", JString (provider cfg)) ].

(** Lines 430 to 439: the clock is read for each item, then the item is
    merged; an item that is not a mapping makes the merge raise.  The items
    are distinct objects ([json.loads] builds a new one for every mapping),
    so rewriting one in place touches no other. *)
Fixpoint add_metadata (pdf_name : str) (materials : list Json)
  : M (Exc (list (dict Json))) :=
  match materials with
  | [] => ret (Ok [])
  | item :: rest =>
      now <- datetime_now ;;
      match item with
      | JDict d =>
          items <-! add_metadata pdf_name rest ;;
          ret (Ok (dict_merge (metadata pdf_name now) d :: items))
      | _ =>
          ret (Raise (py "'" ++ type_name item ++ py "' object is not a mapping"))
      end
  end.

(** *** [process_pdf] (lines 393 to 446) *)

(** The [try] block. *)
Definition process_pdf_try (fuel : nat) (pdf_path : Path)
  : M (Exc (list (dict Json))) :=
  response_text <-!
    (if str_eqb (provider cfg) (py "gemini")
     then _process_with_gemini fuel pdf_path
     else ret (Raise (py "Provider not supported"))) ;;
  match response_text with
  | [] => ret (Raise (py "Empty response from API"))
  | _ =>
      (if debug_mode cfg
       then write_output
              (joinpath output_dir (py "DEBUG_" ++ stem pdf_path ++ py ".txt"))
              (TextFile response_text)
       else ret tt) ;;;
      materials <-! ret (parse_response response_text) ;;
      add_metadata (name pdf_path) materials
  end.

Definition process_pdf (fuel : nat) (pdf_path : Path)
  : M (option (list (dict Json))) :=
  ex <- path_exists pdf_path ;;
  if negb ex then ret None
  else
    r <- process_pdf_try fuel pdf_path ;;
    match r with
    | Ok materials => ret (Some materials)
    | Raise e => _mark_failed (name pdf_path) e ;;; ret None
    end.

(** *** Orchestrator: [run] (lines 448 to 504) *)

(** Lines 457 and 458. *)
Definition discover : M (list Path) :=
  listing <- glob_pdf input_dir ;;
  let all_pdfs := sorted listing in
  c <- gets checkpoint ;;
  ret (filter (fun p => negb (existsb (str_eqb (name p)) (processed c))) all_pdfs).

(** Lines 466 and 467: [if max_papers: to_process = to_process[:max_papers]]. *)
Definition limit (max_papers : option Z) (to_process : list Path) : list Path :=
  match max_papers with
  | None => to_process
  | Some n => if (n =? 0)%Z then to_process else slice_to to_process n
  end.

(** The body of the loop of lines 472 to 491 for one document. *)
Definition process_one (fuel : nat) (pdf_path : Path)
    (all_data : list (dict Json)) : M (list (dict Json)) :=
  data <- process_pdf fuel pdf_path ;;
  all_data' <-
    match data with
    | Some ((_ :: _) as records) =>
        write_output (joinpath output_dir (stem pdf_path ++ py ".json"))
                     (JsonFile records) ;;;
        _mark_processed (name pdf_path) (length records) ;;;
        rename pdf_path (joinpath processed_dir (name pdf_path)) ;;;
        ret (all_data ++ records)
    | _ => ret all_data
    end ;;
  sleep 1 ;;;
  ret all_data'.

Fixpoint process_all (fuel : nat) (to_process : list Path)
    (all_data : list (dict Json)) : M (list (dict Json)) :=
  match to_process with
  | [] => ret all_data
  | pdf_path :: rest =>
      all_data' <- process_one fuel pdf_path all_data ;;
      process_all fuel rest all_data'
  end.

(** Lines 494 to 504. *)
Definition save_combined (all_data : list (dict Json)) : M unit :=
  match all_data with
  | [] => ret tt
  | _ =>
      write_output (joinpath output_dir (py "combined_data.json"))
                   (JsonFile all_data) ;;;
      if to_excel ext all_data
      then write_output (joinpath output_dir (py "dataset.xlsx"))
                        (ExcelFile all_data)
      else ret tt
  end.

(** [run]; the input directory exists, the constructor having created
    [output/] inside it. *)
Definition run (fuel : nat) (max_papers : option Z) : M unit :=
  (if rename_pdfs cfg then rename_input_pdfs fuel else ret 0) ;;;
  to_process <- discover ;;
  match to_process with
  | [] => ret tt
  | _ =>
      let to_process := limit max_papers to_process in
      all_data <- process_all fuel to_process [] ;;
      save_combined all_data
  end.

End WithExternals.

End Ops.
Import Ops.
(* ================================================================= *)
(** ** Vocabulary of the statements *)

Module Spec.

(** The paths on disk. *)
Definition paths (w : World) : list Path := map fst (fs w).

(** [p] is the path of a document on disk. *)
Definition on_disk (w : World) (p : Path) : Prop := In p (paths w).

(** [w1] differs from [w] at most in the documents on disk, the rename log
    and the clock: checkpoint, checkpoint file, uploads, outputs and the
    time slept are the same. *)
Definition same_progress (w w1 : World) : Prop :=
  checkpoint w1 = checkpoint w
  /\ checkpoint_file w1 = checkpoint_file w
  /\ uploads w1 = uploads w
  /\ outputs w1 = outputs w
  /\ slept w1 = slept w.

(** The PDF documents of the input directory, as [glob] filters them. *)
Definition is_input_pdf (cfg : Config) (p : Path) : bool :=
  str_eqb (parent p) (input_dir cfg) && endswith (name p) (py ".pdf").

End Spec.
Import Spec.
(* ================================================================= *)
(** ** Concrete inputs for the examples *)

Module Demo.

(** NFKD leaves ASCII text as it is. *)
Definition id_norm (s : str) : str := s.

Definition ascii_digit (c : char) : bool := ((48 <=? c) && (c <=? 57))%N.

(** A table standing for [json.loads] on the replies used below. *)
Definition demo_loads (text : str) : Exc Json :=
  if str_eqb text (py "[{}, {}, {}]")
  then Ok (JList [JDict []; JDict []; JDict []])
  else if str_eqb text (py "{}") then Ok (JDict [])
  else if str_eqb text (py "[]") then Ok (JList [])
  else if str_eqb text (py "42") then Ok (JInt 42)
  else Raise (py "Expecting value: line 1 column 1 (char 0)").

(** What the analysis of a document's bytes finds. *)
Definition demo_analysis (bytes : str) : option str * str :=
  if str_eqb bytes (py "bytes of a paper without DOI")
  then (None, py "Deep Learning")
  else if str_eqb bytes (py "bytes of a paper with DOI")
  then (Some (py "10.1000/abc123"), py "Graph Theory")
  else (None, py "Untitled").

Definition demo_clock (n : nat) : str := py "T" ++ str_of_nat n.

(** A submission that is ready after [polls] polls and answers [reply]. *)
Definition ready_after (polls : nat) (reply : Exc (Exc str)) : Submission :=
  mkSubmission (Ok (if polls =? 0 then ACTIVE else PROCESSING))
               (fun k => Ok (if k <? polls then PROCESSING else ACTIVE))
               reply
               (Ok tt).

(** A submission that stays in [PROCESSING] for ever. *)
Definition stuck : Submission :=
  mkSubmission (Ok PROCESSING) (fun _ => Ok PROCESSING)
               (Ok (Ok (py "[]"))) (Ok tt).

Definition demo_service (n : nat) (p : Path) : Submission :=
  if str_eqb (name p) (py "a.pdf")
  then ready_after 2 (Ok (Ok (py "```json [{}, {}, {}] ```")))
  else if str_eqb (name p) (py "b.pdf")
  then ready_after 0 (Raise (py "Timeout of 300.0s exceeded"))
  else if str_eqb (name p) (py "c.pdf")
  then ready_after 1 (Ok (Ok (py "I could not read this document.")))
  else if str_eqb (name p) (py "slow.pdf")
  then ready_after 400 (Ok (Ok (py "{}")))
  else stuck.

Definition demo_ext : Externals :=
  mkExternals id_norm ascii_digit demo_analysis demo_clock demo_loads
              demo_service (fun _ => true).

(** The pipeline on the folder [papers], without and with the rename
    pass. *)
Definition demo_cfg : Config :=
  mkConfig (py "papers") (py "gemini") false false true.
Definition rename_cfg : Config :=
  mkConfig (py "papers") (py "gemini") true false true.

Definition in_papers (n : string) : Path := joinpath (py "papers") (py n).

Definition world_of (files : list (Path * str)) (c : Checkpoint) : World :=
  mkWorld files c None None [] [] 0 0.

(** Two fresh documents, listed in no particular order. *)
Definition two_documents : World :=
  world_of [ (in_papers "b.pdf", py "bytes of b");
             (in_papers "a.pdf", py "bytes of a") ]
           empty_checkpoint.

(** A folder whose only document was processed in an earlier run but could
    not be moved away. *)
Definition nothing_new : World :=
  world_of [ (in_papers "a.pdf", py "bytes of a") ]
           (mkCheckpoint [py "a.pdf"] [] [(py "a.pdf", mkStat 3 (py "T0"))]).

(** A folder that an earlier rename pass has normalised: one document
    without identifier, one with. *)
Definition normalised : World :=
  world_of [ (in_papers "NO_DOI - Deep Learning.pdf",
              py "bytes of a paper without DOI");
             (in_papers "10.1000abc123 - Graph Theory.pdf",
              py "bytes of a paper with DOI") ]
           empty_checkpoint.

Definition only_doi_names : World :=
  world_of [ (in_papers "10.1000abc123 - Graph Theory.pdf",
              py "bytes of a paper with DOI") ]
           empty_checkpoint.

(** A folder in which [a.pdf] and [a (2).pdf] are taken. *)
Definition taken_twice : World :=
  world_of [ (in_papers "a.pdf", py "first"); (in_papers "a (2).pdf", py "second") ]
           empty_checkpoint.

Definition one_of (n : string) : World :=
  world_of [ (in_papers n, py "bytes") ] empty_checkpoint.

(** An extracted record that names a provenance field itself. *)
Definition colliding_record : dict Json :=
  [ (py "material", JString (py "TiO2"));
    (py "provider", JString (py "by hand"));
    (py "bandgap", JFloat (py "3.2")) ].

(** A service that is ready at once for every document and answers with
    three records. *)
Definition ready_service (n : nat) (p : Path) : Submission :=
  ready_after 0 (Ok (Ok (py "```json [{}, {}, {}] ```"))).

Definition ready_ext : Externals :=
  mkExternals id_norm ascii_digit demo_analysis demo_clock demo_loads
              ready_service (fun _ => true).

(** A folder whose only document, named by an earlier rename pass, is in
    the processed list (it could not be moved away). *)
Definition processed_no_doi : World :=
  world_of [ (in_papers "NO_DOI - Deep Learning.pdf",
              py "bytes of a paper without DOI") ]
           (mkCheckpoint [py "NO_DOI - Deep Learning.pdf"] []
                         [(py "NO_DOI - Deep Learning.pdf", mkStat 3 (py "T0"))]).

(** The same folder with a name that starts like a DOI. *)
Definition processed_doi : World :=
  world_of [ (in_papers "10.1000abc123 - Graph Theory.pdf",
              py "bytes of a paper with DOI") ]
           (mkCheckpoint [py "10.1000abc123 - Graph Theory.pdf"] []
                         [(py "10.1000abc123 - Graph Theory.pdf",
                           mkStat 3 (py "T0"))]).

(** Calls of the checkpoint store: a document marked twice, another one
    failing twice. *)
Definition demo_calls : list CheckpointCall :=
  [ MarkProcessed (py "a.pdf") 3;
    MarkFailed (py "b.pdf") (py "Timeout of 300.0s exceeded");
    MarkProcessed (py "a.pdf") 3;
    MarkFailed (py "b.pdf") (py "Timeout of 300.0s exceeded") ].

Definition long_title : str := py "Deep learning for materials science".

End Demo.
Import Demo.

(** Decides a goal about concrete strings after evaluation. *)
Ltac not_on_disk :=
  vm_compute;
  repeat match goal with
         | |- _ -> False => intros
         | H : _ \/ _ |- _ => destruct H
         | H : False |- _ => destruct H
         | H : _ = _ |- _ => discriminate H
         end.
(* ================================================================= *)
(** ** Facts about the string operations *)

Section StrFacts.

Lemma str_eqb_eq (a b : str) : str_eqb a b = true <-> a = b.
Proof.
  revert b; induction a as [|x a IH]; destruct b as [|y b]; simpl;
    try (split; congruence).
  rewrite andb_true_iff, N.eqb_eq, IH. split.
  - intros [-> ->]; reflexivity.
  - intros E; injection E; auto.
Qed.

Lemma str_eqb_refl (a : str) : str_eqb a a = true.
Proof. apply str_eqb_eq; reflexivity. Qed.

Lemma str_eqb_neq (a b : str) : str_eqb a b = false <-> a <> b.
Proof.
  rewrite <- str_eqb_eq. destruct (str_eqb a b); split; congruence.
Qed.

Lemma char_in_In (chars : str) (c : char) : char_in chars c = true <-> In c chars.
Proof.
  unfold char_in. rewrite existsb_exists. split.
  - intros (x & Hx & E). apply N.eqb_eq in E. subst; assumption.
  - intros H. exists c. split; [assumption | apply N.eqb_refl].
Qed.

(** [dropwhile] cuts a prefix on which [p] holds and stops at the first
    character on which it does not. *)
Lemma dropwhile_split (p : char -> bool) (s : str) :
  exists b, s = b ++ dropwhile p s /\ Forall (fun c => p c = true) b.
Proof.
  induction s as [|c s (b & E & F)]; simpl.
  - exists []. split; [reflexivity | constructor].
  - destruct (p c) eqn:Pc.
    + exists (c :: b). split; [simpl; congruence | constructor; assumption].
    + exists []. split; [reflexivity | constructor].
Qed.

Lemma dropwhile_head (p : char -> bool) (s : str) (c : char) (r : str) :
  dropwhile p s = c :: r -> p c = false.
Proof.
  induction s as [|x s IH]; simpl; [discriminate|].
  destruct (p x) eqn:Px; [exact IH|].
  intros E; injection E as -> _; assumption.
Qed.

Lemma dropwhile_keep (p : char -> bool) (s : str) (c : char) :
  p c = false -> dropwhile p (s ++ [c]) = dropwhile p s ++ [c].
Proof.
  intros Pc. induction s as [|x s IH]; simpl.
  - rewrite Pc; reflexivity.
  - destruct (p x); [exact IH | reflexivity].
Qed.

Lemma Forall_dropwhile (P : char -> Prop) (p : char -> bool) (s : str) :
  Forall P s -> Forall P (dropwhile p s).
Proof.
  intros F. destruct (dropwhile_split p s) as (b & E & _).
  rewrite E in F. apply Forall_app in F. tauto.
Qed.

Lemma Forall_firstn_str (P : char -> Prop) (n : nat) (s : str) :
  Forall P s -> Forall P (firstn n s).
Proof.
  intros F. rewrite <- (firstn_skipn n s) in F.
  apply Forall_app in F. tauto.
Qed.

Lemma Forall_tl_str (P : char -> Prop) (s : str) : Forall P s -> Forall P (tl s).
Proof. intros F; destruct F; simpl; [constructor | assumption]. Qed.

Lemma Forall_rstrip_by (P : char -> Prop) (p : char -> bool) (s : str) :
  Forall P s -> Forall P (rstrip_by p s).
Proof.
  intros F. unfold rstrip_by.
  apply Forall_rev, Forall_dropwhile, Forall_rev, F.
Qed.

Lemma Forall_strip (P : char -> Prop) (s : str) : Forall P s -> Forall P (strip s).
Proof.
  intros F. unfold strip, lstrip_by.
  apply Forall_rstrip_by, Forall_dropwhile, F.
Qed.

Lemma Forall_strip_chars (P : char -> Prop) (chars s : str) :
  Forall P s -> Forall P (strip_chars chars s).
Proof.
  intros F. unfold strip_chars, lstrip_by.
  apply Forall_rstrip_by, Forall_dropwhile, F.
Qed.

Lemma Forall_sub_spaces (P : char -> Prop) (s : str) (in_run : bool) :
  P space -> Forall P s -> Forall P (sub_spaces in_run s).
Proof.
  intros Psp F. revert in_run.
  induction F as [|c s Pc F IH]; intros in_run; simpl; [constructor|].
  destruct (isspace c); [destruct in_run|]; auto.
Qed.

Lemma Forall_slice_to (P : char -> Prop) (s : str) (n : Z) :
  Forall P s -> Forall P (slice_to s n).
Proof.
  intros F. unfold slice_to.
  destruct (n <? 0)%Z; apply Forall_firstn_str, F.
Qed.

Lemma Forall_rsplit1_head (P : char -> Prop) (s : str) :
  Forall P s -> Forall P (rsplit1_head s).
Proof.
  intros F. unfold rsplit1_head. destruct (char_in s space); [|exact F].
  apply Forall_rev, Forall_tl_str, Forall_dropwhile, Forall_rev, F.
Qed.

Lemma length_dropwhile (p : char -> bool) (s : str) :
  length (dropwhile p s) <= length s.
Proof.
  destruct (dropwhile_split p s) as (b & E & _).
  rewrite E at 2. rewrite length_app. lia.
Qed.

Lemma length_rsplit1_head (s : str) : length (rsplit1_head s) <= length s.
Proof.
  unfold rsplit1_head. destruct (char_in s space); [|lia].
  rewrite length_rev.
  pose proof (length_dropwhile (fun c => negb (N.eqb c space)) (rev s)) as L.
  rewrite length_rev in L.
  destruct (dropwhile _ (rev s)); simpl in *; lia.
Qed.

(** [rsplit1_head] cuts at the last space. *)
Lemma rsplit1_head_last_space (s : str) :
  In space s ->
  exists a b, s = a ++ space :: b /\ ~ In space b /\ rsplit1_head s = a.
Proof.
  intros I. unfold rsplit1_head.
  rewrite (proj2 (char_in_In s space) I).
  set (p := fun c : char => negb (N.eqb c space)).
  destruct (dropwhile_split p (rev s)) as (b & E & F).
  destruct (dropwhile p (rev s)) as [|c r] eqn:D.
  - exfalso. rewrite app_nil_r in E. subst b.
    rewrite Forall_forall in F. apply in_rev in I.
    specialize (F _ I). unfold p in F. rewrite N.eqb_refl in F. discriminate.
  - pose proof (dropwhile_head _ _ _ _ D) as Pc. unfold p in Pc.
    apply negb_false_iff, N.eqb_eq in Pc. subst c.
    exists (rev r), (rev b). simpl. split; [|split]; [| |reflexivity].
    + rewrite <- (rev_involutive s), E, rev_app_distr. simpl.
      rewrite <- app_assoc. reflexivity.
    + intros Hb. apply in_rev in Hb. rewrite Forall_forall in F.
      specialize (F _ Hb). unfold p in F. rewrite N.eqb_refl in F. discriminate.
Qed.

(** Stripping on the right keeps a first character that is not stripped. *)
Lemma rstrip_by_head (p : char -> bool) (c : char) (s : str) :
  p c = false -> exists r, rstrip_by p (c :: s) = c :: r.
Proof.
  intros Pc. unfold rstrip_by. simpl.
  rewrite dropwhile_keep by assumption.
  rewrite rev_app_distr. simpl. eexists; reflexivity.
Qed.

Lemma strip_chars_head (chars s : str) (c : char) (r : str) :
  strip_chars chars s = c :: r -> char_in chars c = false.
Proof.
  unfold strip_chars, lstrip_by.
  destruct (dropwhile (char_in chars) s) as [|x t] eqn:D.
  - unfold rstrip_by; simpl; discriminate.
  - pose proof (dropwhile_head _ _ _ _ D) as Px.
    destruct (rstrip_by_head (char_in chars) x t Px) as (r' & E).
    rewrite E. intros E'; injection E' as -> _; assumption.
Qed.

Lemma remove_invalid_filter (cs : str) (s : str) :
  fold_left (fun t c => remove_char c t) cs s
  = filter (fun x => negb (char_in cs x)) s.
Proof.
  revert s; induction cs as [|c cs IH]; intros s; simpl.
  - symmetry; apply filter_true.
  - rewrite IH. unfold remove_char. clear IH.
    induction s as [|x s IHs]; simpl; [reflexivity|].
    destruct (N.eqb x c); simpl; [exact IHs|].
    destruct (char_in cs x); simpl; [exact IHs | f_equal; exact IHs].
Qed.

End StrFacts.

(* ================================================================= *)
(** ** [clean_filename]: reserved characters, length, placeholder, cut *)

Section CleanFacts.

Variable normalize : str -> str.

Lemma cleaned_text_ok (text : str) :
  Forall (fun c => char_in invalid_chars c = false) (cleaned_text normalize text).
Proof.
  unfold cleaned_text.
  apply Forall_strip_chars, Forall_strip, Forall_sub_spaces; [reflexivity|].
  unfold remove_invalid. rewrite remove_invalid_filter.
  apply Forall_forall. intros c Hc. apply filter_In in Hc.
  destruct Hc as [_ Hc]. apply negb_true_iff in Hc. exact Hc.
Qed.

Lemma clean_filename_ok (text : str) (max_len : Z) :
  Forall (fun c => char_in invalid_chars c = false)
         (clean_filename normalize text max_len).
Proof.
  unfold clean_filename.
  pose proof (cleaned_text_ok text) as F.
  set (body := cleaned_text normalize text) in *.
  assert (F' : Forall (fun c => char_in invalid_chars c = false)
                      (if (Z.of_nat (length body) >? max_len)%Z
                       then rsplit1_head (slice_to body max_len) else body)).
  { destruct (_ >? _)%Z; [apply Forall_rsplit1_head, Forall_slice_to|]; exact F. }
  destruct (if (_ >? _)%Z then _ else _); [|exact F'].
  repeat constructor.
Qed.

(** The cleaned text never starts with a space. *)
Lemma cleaned_text_head (text : str) (c : char) (r : str) :
  cleaned_text normalize text = c :: r -> c <> space.
Proof.
  unfold cleaned_text. intros E. apply strip_chars_head in E.
  intros ->. discriminate E.
Qed.

End CleanFacts.

(** C6 (as amended).  For every normalisation table, every input and every
    bound of at least 8 (the length of the placeholder), [clean_filename]
    returns a string with no reserved character, of length at most the
    bound, and not empty: it is [Untitled] when the cleaned text is empty and
    the cleaned text itself when that fits.  When the cleaned text is longer
    than the bound, the result is the first [max_len] characters cut back to
    the last space among them (the character after the cut is a space, so no
    word is split), and the plain prefix of [max_len] characters only when
    that prefix holds no space. *)
Theorem clean_filename_safe_bounded
    (normalize : str -> str) (text : str) (max_len : Z) :
  (8 <= max_len)%Z ->
  let body := cleaned_text normalize text in
  let out := clean_filename normalize text max_len in
  let n := Z.to_nat max_len in
  Forall (fun c => ~ In c invalid_chars) out
  /\ (Z.of_nat (length out) <= max_len)%Z
  /\ out <> []
  /\ (body = [] -> out = py "Untitled")
  /\ (body <> [] -> length body <= n -> out = body)
  /\ (n < length body ->
      (~ In space (firstn n body) -> out = firstn n body)
      /\ (In space (firstn n body) ->
          exists k, 0 < k < n
                    /\ nth_error body k = Some space
                    /\ ~ In space (skipn (S k) (firstn n body))
                    /\ out = firstn k body)).
Proof.
  intros Hmax body out n.
  assert (Hok : Forall (fun c => ~ In c invalid_chars) out).
  { eapply Forall_impl; [|apply clean_filename_ok].
    intros c Hc Hin. apply char_in_In in Hin. congruence. }
  split; [exact Hok|]. clear Hok.
  assert (Hslice : slice_to body max_len = firstn n body).
  { unfold slice_to. destruct (Z.ltb_spec max_len 0); [lia | reflexivity]. }
  assert (Hout : out = match (if (Z.of_nat (length body) >? max_len)%Z
                              then rsplit1_head (firstn n body) else body) with
                       | [] => py "Untitled"
                       | t => t
                       end).
  { unfold out, clean_filename. fold body. rewrite Hslice.
    destruct (if (_ >? _)%Z then _ else _); reflexivity. }
  destruct (Z.gtb_spec (Z.of_nat (length body)) max_len) as [Hlong|Hshort].
  - (* truncation *)
    assert (Hn : n < length body) by lia.
    assert (Hpre : length (firstn n body) = n) by (apply firstn_length_le; lia).
    destruct (in_dec N.eq_dec space (firstn n body)) as [Hsp|Hnsp].
    + destruct (rsplit1_head_last_space _ Hsp) as (a & b & Eab & Hb & Ha).
      rewrite Ha in Hout.
      assert (Hbody : body = a ++ space :: b ++ skipn n body).
      { rewrite <- (firstn_skipn n body) at 1. rewrite Eab, <- app_assoc.
        reflexivity. }
      assert (Hlen : n = length a + S (length b)).
      { rewrite <- Hpre, Eab, length_app. reflexivity. }
      assert (Hane : a <> []).
      { intros ->. simpl in Hbody.
        exact (cleaned_text_head normalize text _ _ Hbody eq_refl). }
      assert (Houta : out = a) by (rewrite Hout; destruct a; congruence).
      assert (Hfa : firstn (length a) body = a).
      { rewrite Hbody, firstn_app, Nat.sub_diag, firstn_all. simpl.
        apply app_nil_r. }
      split; [|split; [|split; [|split]]].
      * rewrite Houta. lia.
      * congruence.
      * intros Eb. rewrite Eb in Hn. simpl in Hn. lia.
      * intros _ Hle. lia.
      * intros _. split; [intros Hno; contradiction|]. intros _.
        exists (length a). repeat split.
        -- destruct a; [congruence | simpl; lia].
        -- lia.
        -- rewrite Hbody, nth_error_app2, Nat.sub_diag by lia. reflexivity.
        -- rewrite Eab.
           replace (S (length a)) with (length (a ++ [space]))
             by (rewrite length_app; simpl; lia).
           replace (a ++ space :: b) with ((a ++ [space]) ++ b)
             by (rewrite <- app_assoc; reflexivity).
           rewrite skipn_app, skipn_all, Nat.sub_diag. simpl. exact Hb.
        -- congruence.
    + assert (Hrs : rsplit1_head (firstn n body) = firstn n body).
      { unfold rsplit1_head.
        destruct (char_in (firstn n body) space) eqn:C; [|reflexivity].
        apply char_in_In in C. contradiction. }
      rewrite Hrs in Hout.
      assert (Houtp : out = firstn n body).
      { rewrite Hout. destruct (firstn n body) eqn:E; [|reflexivity].
        simpl in Hpre. lia. }
      split; [|split; [|split; [|split]]].
      * rewrite Houtp, Hpre. lia.
      * rewrite Houtp. intros E. rewrite E in Hpre. simpl in Hpre. lia.
      * intros Eb. rewrite Eb in Hn. simpl in Hn. lia.
      * intros _ Hle. lia.
      * intros _. split; [intros _; exact Houtp | intros Hsp; contradiction].
  - (* the cleaned text fits *)
    split; [|split; [|split; [|split]]].
    + rewrite Hout. destruct body; simpl in *; lia.
    + rewrite Hout. destruct body; discriminate.
    + intros Eb. rewrite Hout, Eb. reflexivity.
    + intros Hne _. rewrite Hout. destruct body; congruence.
    + intros Hn. lia.
Qed.

(* ================================================================= *)
(** ** Paths and [get_unique_path] *)

Section PathFacts.

Lemma Path_eqb_eq (p q : Path) : Path_eqb p q = true <-> p = q.
Proof.
  unfold Path_eqb. rewrite andb_true_iff, !str_eqb_eq.
  destruct p, q; simpl. split.
  - intros [-> ->]; reflexivity.
  - intros E; injection E; auto.
Qed.

Lemma Path_eqb_refl (p : Path) : Path_eqb p p = true.
Proof. apply Path_eqb_eq; reflexivity. Qed.

Lemma Path_eqb_neq (p q : Path) : Path_eqb p q = false <-> p <> q.
Proof.
  rewrite <- Path_eqb_eq. destruct (Path_eqb p q); split; congruence.
Qed.

Lemma Path_eq_dec (p q : Path) : {p = q} + {p <> q}.
Proof.
  destruct (Path_eqb p q) eqn:E.
  - left; apply Path_eqb_eq; assumption.
  - right; apply Path_eqb_neq; assumption.
Qed.

(** The test behind [p.exists()]. *)
Lemma on_disk_iff (p : Path) (files : list (Path * str)) :
  existsb (fun e => Path_eqb (fst e) p) files = true <-> In p (map fst files).
Proof.
  rewrite existsb_exists, in_map_iff. split.
  - intros (e & He & E). apply Path_eqb_eq in E. exists e; auto.
  - intros (e & E & He). exists e. split; [assumption|].
    apply Path_eqb_eq; assumption.
Qed.

Lemma on_disk_false (p : Path) (files : list (Path * str)) :
  existsb (fun e => Path_eqb (fst e) p) files = false <-> ~ In p (map fst files).
Proof.
  rewrite <- on_disk_iff. destruct (existsb _ files); split; congruence.
Qed.

Lemma py_inj (a b : string) : py a = py b -> a = b.
Proof.
  unfold py. intros E.
  rewrite <- (string_of_list_ascii_of_string a),
          <- (string_of_list_ascii_of_string b).
  f_equal. revert E.
  generalize (list_ascii_of_string b) as lb.
  generalize (list_ascii_of_string a) as la.
  induction la as [|x la IH]; intros [|y lb]; simpl; try congruence.
  intros E. injection E as Exy El. f_equal; [|auto].
  rewrite <- (ascii_N_embedding x), <- (ascii_N_embedding y), Exy.
  reflexivity.
Qed.

Lemma str_of_nat_inj (n m : nat) : str_of_nat n = str_of_nat m -> n = m.
Proof.
  unfold str_of_nat. intros E. apply py_inj in E.
  apply DecimalNat.Unsigned.to_uint_inj.
  pose proof (DecimalString.NilEmpty.usu (Nat.to_uint n)) as Hn.
  pose proof (DecimalString.NilEmpty.usu (Nat.to_uint m)) as Hm.
  rewrite E in Hn. congruence.
Qed.

(** Two counters never give the same numbered path. *)
Lemma numbered_inj (path : Path) (n m : nat) :
  numbered path n = numbered path m -> n = m.
Proof.
  unfold numbered, joinpath. intros E. injection E as E.
  apply app_inv_head in E. simpl in E. injection E as E.
  change (41%N :: suffix path) with ([41%N] ++ suffix path) in E.
  rewrite !app_assoc in E. apply app_inv_tail in E.
  apply app_inv_tail in E. apply str_of_nat_inj; assumption.
Qed.

Section OnDisk.

Variable w : World.
Variable path : Path.

Lemma on_disk_dec (p : Path) : {on_disk w p} + {~ on_disk w p}.
Proof. unfold on_disk, paths. apply in_dec, Path_eq_dec. Qed.

Lemma path_exists_eq (p : Path) :
  path_exists p w = Some (existsb (fun e => Path_eqb (fst e) p) (fs w), w).
Proof. reflexivity. Qed.

(** The loop returns the first free number, leaving the world as it is. *)
Lemma first_free_least (fuel c n : nat) :
  c <= n -> n < c + fuel ->
  ~ on_disk w (numbered path n) ->
  (forall m, c <= m < n -> on_disk w (numbered path m)) ->
  first_free fuel path c w = Some (numbered path n, w).
Proof.
  revert c. induction fuel as [|fuel IH]; intros c Hc Hn Hfree Hbelow; [lia|].
  simpl. unfold bind. rewrite path_exists_eq.
  destruct (Nat.eq_dec c n) as [->|Hne].
  - rewrite (proj2 (on_disk_false _ _) Hfree). reflexivity.
  - rewrite (proj2 (on_disk_iff _ _) (Hbelow c ltac:(lia))). simpl.
    apply IH; [lia | lia | assumption | intros m Hm; apply Hbelow; lia].
Qed.

(** Bounded search for the first free number from [c] on. *)
Lemma free_or_full (c k : nat) :
  (exists n, c <= n < c + k /\ ~ on_disk w (numbered path n)
             /\ forall m, c <= m < n -> on_disk w (numbered path m))
  \/ (forall m, c <= m < c + k -> on_disk w (numbered path m)).
Proof.
  induction k as [|k [(n & Hn & Hfree & Hbelow) | Hfull]].
  - right. intros m Hm. lia.
  - left. exists n. repeat split; try lia; assumption.
  - destruct (on_disk_dec (numbered path (c + k))) as [Hon|Hoff].
    + right. intros m Hm. destruct (Nat.eq_dec m (c + k)) as [->|Hne];
        [assumption | apply Hfull; lia].
    + left. exists (c + k). repeat split; try lia; [assumption|].
      intros m Hm. apply Hfull. lia.
Qed.

(** Pigeonhole: numbered paths that are all on disk are no more than the
    files. *)
Lemma full_bound (c k : nat) :
  (forall m, c <= m < c + k -> on_disk w (numbered path m)) -> k <= length (fs w).
Proof.
  intros Hfull.
  assert (H : length (map (numbered path) (seq c k)) <= length (map fst (fs w))).
  { apply NoDup_incl_length.
    - apply Finite.Injective_map_NoDup_in; [|apply seq_NoDup].
      intros x y _ _. apply numbered_inj.
    - intros p Hp. apply in_map_iff in Hp. destruct Hp as (m & <- & Hm).
      apply in_seq in Hm. apply Hfull. lia. }
  rewrite !length_map, length_seq in H. exact H.
Qed.

Lemma least_free (c : nat) :
  exists n, c <= n <= c + length (fs w)
            /\ ~ on_disk w (numbered path n)
            /\ forall m, c <= m < n -> on_disk w (numbered path m).
Proof.
  destruct (free_or_full c (S (length (fs w)))) as [(n & Hn & H) | Hfull].
  - exists n. split; [lia | exact H].
  - apply full_bound in Hfull. lia.
Qed.

End OnDisk.

End PathFacts.

(** C7.  For every candidate path and every finite set of files on disk,
    [get_unique_path] returns, for every amount of fuel above the number of
    files, one and the same path and leaves the world (the disk included)
    untouched.  That path is not on disk; it is the candidate itself when the
    candidate is not on disk, and otherwise the numbered path with the first
    number from 2 on whose path is free, every smaller number from 2 being
    taken.  After N collisions (the candidate and the numbers 2 to N) the
    number is N+1. *)
Theorem get_unique_path_spec (w : World) (path : Path) :
  exists result,
    (forall fuel, length (fs w) < fuel ->
                  get_unique_path fuel path w = Some (result, w))
    /\ ~ on_disk w result
    /\ (~ on_disk w path -> result = path)
    /\ (on_disk w path ->
        exists n, 2 <= n /\ result = numbered path n
                  /\ forall m, 2 <= m < n -> on_disk w (numbered path m))
    /\ (forall N, 1 <= N -> on_disk w path ->
                  (forall m, 2 <= m <= N -> on_disk w (numbered path m)) ->
                  ~ on_disk w (numbered path (S N)) ->
                  result = numbered path (S N)).
Proof.
  destruct (on_disk_dec w path) as [Hon|Hoff].
  - destruct (least_free w path 2) as (n & Hn & Hfree & Hbelow).
    exists (numbered path n). repeat split.
    + intros fuel Hfuel. unfold get_unique_path, bind.
      rewrite path_exists_eq, (proj2 (on_disk_iff _ _) Hon). simpl.
      apply first_free_least; [lia | lia | assumption | assumption].
    + exact Hfree.
    + intros Hoff. contradiction.
    + intros _. exists n. repeat split; [lia | assumption].
    + intros N HN _ Htaken HfreeN.
      f_equal. destruct (Nat.lt_trichotomy n (S N)) as [Hlt | [-> | Hgt]].
      * exfalso. apply Hfree, Htaken. lia.
      * reflexivity.
      * exfalso. apply HfreeN, Hbelow. lia.
  - exists path. repeat split.
    + intros fuel _. unfold get_unique_path, bind.
      rewrite path_exists_eq, (proj2 (on_disk_false _ _) Hoff). reflexivity.
    + exact Hoff.
    + intros Hon. contradiction.
    + intros N _ Hon. contradiction.
Qed.
(* ================================================================= *)
(** ** CheckpointStore *)

Section CheckpointFacts.

Variable ext : Externals.

Lemma in_existsb_str (x : str) (l : list str) :
  existsb (str_eqb x) l = true <-> In x l.
Proof.
  rewrite existsb_exists. split.
  - intros (y & Hy & E). apply str_eqb_eq in E. subst; assumption.
  - intros H. exists x. split; [assumption | apply str_eqb_refl].
Qed.

Lemma not_in_existsb_str (x : str) (l : list str) :
  existsb (str_eqb x) l = false <-> ~ In x l.
Proof.
  rewrite <- in_existsb_str. destruct (existsb _ l); split; congruence.
Qed.

(** What [_mark_processed] leaves behind. *)
Lemma mark_processed_eq (pdf_name : str) (num_records : nat) (w : World) :
  exists w',
    _mark_processed ext pdf_name num_records w = Some (tt, w')
    /\ processed (checkpoint w')
       = (if existsb (str_eqb pdf_name) (processed (checkpoint w))
          then processed (checkpoint w)
          else processed (checkpoint w) ++ [pdf_name])
    /\ failed (checkpoint w') = failed (checkpoint w)
    /\ stats (checkpoint w')
       = dict_set (stats (checkpoint w)) pdf_name
                  (mkStat num_records (clock ext (clock_reads w)))
    /\ checkpoint_file w' = Some (checkpoint w')
    /\ fs w' = fs w /\ uploads w' = uploads w /\ outputs w' = outputs w
    /\ renamed_log w' = renamed_log w /\ slept w' = slept w
    /\ clock_reads w' = S (clock_reads w).
Proof.
  unfold _mark_processed, _save_checkpoint, datetime_now, modify, bind.
  eexists. split; [reflexivity|].
  destruct (existsb (str_eqb pdf_name) (processed (checkpoint w)));
    simpl; repeat split; reflexivity.
Qed.

(** What [_mark_failed] leaves behind. *)
Lemma mark_failed_eq (pdf_name error : str) (w : World) :
  exists w',
    _mark_failed ext pdf_name error w = Some (tt, w')
    /\ processed (checkpoint w') = processed (checkpoint w)
    /\ failed (checkpoint w')
       = failed (checkpoint w)
         ++ [mkFail pdf_name error (clock ext (clock_reads w))]
    /\ stats (checkpoint w') = stats (checkpoint w)
    /\ checkpoint_file w' = Some (checkpoint w')
    /\ fs w' = fs w /\ uploads w' = uploads w /\ outputs w' = outputs w
    /\ renamed_log w' = renamed_log w /\ slept w' = slept w
    /\ clock_reads w' = S (clock_reads w).
Proof.
  unfold _mark_failed, _save_checkpoint, datetime_now, modify, bind.
  eexists. split; [reflexivity|]. simpl. repeat split; reflexivity.
Qed.

(** One call: the file holds the checkpoint afterwards, at most one new
    name was appended to [processed], and [failed] grew by the records of
    the call. *)
Lemma call_effect (c : CheckpointCall) (w : World) :
  exists w' added recs,
    call ext c w = Some (tt, w')
    /\ checkpoint_file w' = Some (checkpoint w')
    /\ processed (checkpoint w') = processed (checkpoint w) ++ added
    /\ NoDup added
    /\ (forall x, In x added -> ~ In x (processed (checkpoint w)))
    /\ failed (checkpoint w') = failed (checkpoint w) ++ recs
    /\ map (fun r => (pdf r, error r)) recs = failures_of [c].
Proof.
  destruct c as [pdf_name num_records | pdf_name error]; simpl.
  - destruct (mark_processed_eq pdf_name num_records w)
      as (w' & E & Hp & Hf & _ & Hfile & _).
    destruct (existsb (str_eqb pdf_name) (processed (checkpoint w))) eqn:Hin.
    + exists w', [], []. rewrite !app_nil_r.
      repeat split; try assumption; try constructor. intros x [].
    + exists w', [pdf_name], []. rewrite app_nil_r.
      repeat split; try assumption.
      * repeat constructor. intros [].
      * intros x [<- | []]. apply not_in_existsb_str; assumption.
  - destruct (mark_failed_eq pdf_name error w)
      as (w' & E & Hp & Hf & _ & Hfile & _).
    exists w', [], [mkFail pdf_name error (clock ext (clock_reads w))].
    rewrite app_nil_r.
    repeat split; try assumption; try constructor. intros x [].
Qed.

Lemma calls_app (a b : list CheckpointCall) (w : World) :
  calls ext (a ++ b) w
  = match calls ext a w with
    | Some (_, w1) => calls ext b w1
    | None => None
    end.
Proof.
  revert w. induction a as [|c a IH]; intros w; simpl; [reflexivity|].
  unfold bind. destruct (call ext c w) as [[[] w1]|]; [apply IH | reflexivity].
Qed.

Lemma failures_of_app (a b : list CheckpointCall) :
  failures_of (a ++ b) = failures_of a ++ failures_of b.
Proof.
  induction a as [|[n k | n e] a IH]; simpl; [reflexivity | assumption |].
  f_equal; assumption.
Qed.

(** A sequence of calls: it runs to the end, the names it appends to
    [processed] are new and pairwise distinct, [failed] grows by one record
    for each [MarkFailed], and the file holds the checkpoint at the end when
    a call was made. *)
Lemma calls_effect (cs : list CheckpointCall) (w : World) :
  exists w' added recs,
    calls ext cs w = Some (tt, w')
    /\ (cs <> [] -> checkpoint_file w' = Some (checkpoint w'))
    /\ processed (checkpoint w') = processed (checkpoint w) ++ added
    /\ NoDup added
    /\ (forall x, In x added -> ~ In x (processed (checkpoint w)))
    /\ failed (checkpoint w') = failed (checkpoint w) ++ recs
    /\ map (fun r => (pdf r, error r)) recs = failures_of cs.
Proof.
  induction cs as [|c cs IH] using rev_ind.
  - exists w, [], []. rewrite !app_nil_r.
    repeat split; try constructor; try congruence. intros x [].
  - destruct IH as (w1 & added1 & recs1 & E1 & _ & Hp1 & Hn1 & Hnew1 & Hf1 & Hm1).
    destruct (call_effect c w1)
      as (w2 & added2 & recs2 & E2 & Hfile & Hp2 & Hn2 & Hnew2 & Hf2 & Hm2).
    exists w2, (added1 ++ added2), (recs1 ++ recs2).
    split; [|split; [|split; [|split; [|split; [|split]]]]].
    + rewrite calls_app, E1. simpl. unfold bind. rewrite E2. reflexivity.
    + intros _. exact Hfile.
    + rewrite Hp2, Hp1, app_assoc. reflexivity.
    + apply NoDup_app; try assumption.
      intros x Hx1 Hx2. apply (Hnew2 x Hx2). rewrite Hp1.
      apply in_or_app. right; assumption.
    + intros x Hx Hin. apply in_app_or in Hx. destruct Hx as [Hx|Hx].
      * exact (Hnew1 x Hx Hin).
      * apply (Hnew2 x Hx). rewrite Hp1. apply in_or_app. left; assumption.
    + rewrite Hf2, Hf1, app_assoc. reflexivity.
    + rewrite map_app, failures_of_app, Hm1, Hm2. reflexivity.
Qed.

End CheckpointFacts.

(** C2.  For every sequence of [_mark_processed] and [_mark_failed] calls
    and every checkpoint state it starts from, the calls run to the end and:
    the names they append to [processed] are pairwise distinct and were not
    in the list before, so a list without duplicates stays without
    duplicates and a name already present is not appended again; [failed]
    keeps every record it had and receives, in order, exactly one record for
    each [_mark_failed]; and right after each call of the sequence the
    checkpoint file holds the checkpoint in memory. *)
Theorem checkpoint_calls_invariants
    (ext : Externals) (cs : list CheckpointCall) (w : World) :
  exists w' added recs,
    calls ext cs w = Some (tt, w')
    /\ processed (checkpoint w') = processed (checkpoint w) ++ added
    /\ NoDup added
    /\ (forall x, In x added -> ~ In x (processed (checkpoint w)))
    /\ (NoDup (processed (checkpoint w)) -> NoDup (processed (checkpoint w')))
    /\ (forall pdf_name k w0,
          In pdf_name (processed (checkpoint w0)) ->
          exists w1, _mark_processed ext pdf_name k w0 = Some (tt, w1)
                     /\ processed (checkpoint w1) = processed (checkpoint w0))
    /\ failed (checkpoint w') = failed (checkpoint w) ++ recs
    /\ map (fun r => (pdf r, error r)) recs = failures_of cs
    /\ length recs = length (failures_of cs)
    /\ (forall pre c post,
          cs = pre ++ c :: post ->
          exists w1, calls ext (pre ++ [c]) w = Some (tt, w1)
                     /\ checkpoint_file w1 = Some (checkpoint w1)).
Proof.
  destruct (calls_effect ext cs w)
    as (w' & added & recs & E & _ & Hp & Hn & Hnew & Hf & Hm).
  exists w', added, recs.
  split; [exact E|]. split; [exact Hp|]. split; [exact Hn|].
  split; [exact Hnew|]. split; [|split; [|split; [|split; [|split]]]].
  - intros Hnd. rewrite Hp. apply NoDup_app; try assumption.
    intros x Hx Hx'. exact (Hnew x Hx' Hx).
  - intros pdf_name k w0 Hin.
    destruct (mark_processed_eq ext pdf_name k w0) as (w1 & E1 & Hp1 & _).
    exists w1. split; [exact E1|].
    rewrite Hp1, (proj2 (in_existsb_str _ _) Hin). reflexivity.
  - exact Hf.
  - exact Hm.
  - rewrite <- Hm, length_map. reflexivity.
  - intros pre c post Hcs.
    destruct (calls_effect ext (pre ++ [c]) w)
      as (w1 & _ & _ & E1 & Hfile & _).
    exists w1. split; [exact E1|]. apply Hfile.
    intros Habs. apply app_eq_nil in Habs. destruct Habs; discriminate.
Qed.
(* ================================================================= *)
(** ** ExtractionClient: the wait loop *)

Section ClientFacts.

Variable sub : Submission.

(** The loop leaves at the first answer that is not [PROCESSING], having
    slept one second before each poll. *)
Lemma wait_leaves (j : nat) :
  forall (i fuel : nat) (state s : FileState) (w : World),
    (j = 0 -> state = s) ->
    (0 < j -> is_processing state = true) ->
    (forall m, i < m < i + j -> get_file sub m = Ok PROCESSING) ->
    (0 < j -> get_file sub (i + j) = Ok s) ->
    is_processing s = false ->
    j <= fuel ->
    wait_while_processing fuel sub i state w
    = Some (Ok s, set_slept w (slept w + j)).
Proof.
  induction j as [|j IH]; intros i fuel state s w H0 Hpos Hmid Hlast Hs Hfuel.
  - rewrite (H0 eq_refl).
    replace (set_slept w (slept w + 0)) with w
      by (destruct w; unfold set_slept; simpl; rewrite Nat.add_0_r; reflexivity).
    destruct fuel; simpl; rewrite Hs; reflexivity.
  - destruct fuel as [|fuel]; [lia|].
    simpl. rewrite (Hpos ltac:(lia)). unfold bind, sleep, modify, ret.
    destruct j as [|j].
    + rewrite <- (Nat.add_1_r i), (Hlast ltac:(lia)).
      rewrite (IH (i + 1) fuel s s _); try lia; auto.
      f_equal. f_equal. destruct w; unfold set_slept; simpl.
      f_equal; lia.
    + rewrite (Hmid (S i) ltac:(lia)).
      rewrite (IH (S i) fuel PROCESSING s _); try lia; auto.
      * f_equal. f_equal. destruct w; unfold set_slept; simpl.
        f_equal; lia.
      * intros m Hm. apply Hmid. lia.
      * intros _. replace (S i + S j) with (i + S (S j)) by lia.
        apply Hlast; lia.
Qed.

(** While every poll answers [PROCESSING] the loop goes on, whatever the
    fuel. *)
Lemma wait_stuck (fuel : nat) :
  forall (i : nat) (w : World),
    (forall m, i < m -> get_file sub m = Ok PROCESSING) ->
    wait_while_processing fuel sub i PROCESSING w = None.
Proof.
  induction fuel as [|fuel IH]; intros i w Hall; simpl; [reflexivity|].
  unfold bind, sleep, modify, ret. rewrite (Hall (S i) ltac:(lia)).
  apply IH. intros m Hm. apply Hall. lia.
Qed.

End ClientFacts.

Lemma process_with_gemini_stuck (ext : Externals) (pdf_path : Path) (w : World) :
  (forall i, reported (service ext (length (uploads w)) pdf_path) i = Ok PROCESSING) ->
  forall fuel, _process_with_gemini ext fuel pdf_path w = None.
Proof.
  intros Hall fuel. unfold _process_with_gemini, bind, gets, modify, ret.
  pose proof (Hall 0) as H0. simpl in H0. rewrite H0.
  rewrite wait_stuck; [reflexivity|].
  intros m Hm. specialize (Hall m). destruct m; [lia | exact Hall].
Qed.

(** C4 (as amended).  For every behaviour of the service: the client polls
    once a second while the submission is [PROCESSING] and stops at the
    first answer in another state, so when the k-th answer is the first one
    that is not [PROCESSING] the wait ends after exactly k polls and k
    seconds, for every k; and when every answer is [PROCESSING] the wait,
    and with it [_process_with_gemini], does not end, whatever the fuel: the
    loop has no time-out of its own (the 300 seconds bound the generation
    request made after the wait). *)
Theorem wait_ends_only_when_service_leaves_processing
    (ext : Externals) (pdf_path : Path) (w : World) :
  let sub := service ext (length (uploads w)) pdf_path in
  (forall k state0 s,
      upload_file sub = Ok state0 ->
      (forall i, i < k -> reported sub i = Ok PROCESSING) ->
      reported sub k = Ok s ->
      s <> PROCESSING ->
      forall fuel, k <= fuel ->
        wait_while_processing fuel sub 0 state0 w
        = Some (Ok s, set_slept w (slept w + k)))
  /\ ((forall i, reported sub i = Ok PROCESSING) ->
      forall fuel,
        wait_while_processing fuel sub 0 PROCESSING w = None
        /\ _process_with_gemini ext fuel pdf_path w = None).
Proof.
  intros sub. split.
  - intros k state0 s Hup Hproc Hk Hs fuel Hfuel.
    assert (Hs' : is_processing s = false)
      by (destruct s; simpl; try reflexivity; exfalso; apply Hs; reflexivity).
    apply wait_leaves; try assumption.
    + intros ->. simpl in Hk. congruence.
    + intros Hpos. specialize (Hproc 0 Hpos). simpl in Hproc.
      assert (state0 = PROCESSING) by congruence. subst; reflexivity.
    + intros m Hm. specialize (Hproc m ltac:(lia)).
      destruct m; [lia | exact Hproc].
    + intros Hpos. simpl. destruct k; [lia | exact Hk].
  - intros Hall fuel. split.
    + apply wait_stuck. intros m Hm. specialize (Hall m).
      destruct m; [lia | exact Hall].
    + apply process_with_gemini_stuck. exact Hall.
Qed.
(* ================================================================= *)
(** ** Dictionaries *)

Section DictFacts.

Context {V : Type}.

Lemma keys_dict_set (d : dict V) (k : str) (v : V) :
  keys (dict_set d k v)
  = if existsb (str_eqb k) (keys d) then keys d else keys d ++ [k].
Proof.
  unfold keys.
  induction d as [|[k' v'] d IH]; simpl; [reflexivity|].
  destruct (str_eqb k' k) eqn:E.
  - apply str_eqb_eq in E. subst k'. rewrite str_eqb_refl. reflexivity.
  - assert (E' : str_eqb k k' = false).
    { apply str_eqb_neq. apply str_eqb_neq in E. congruence. }
    rewrite E'. simpl. rewrite IH.
    destruct (existsb (str_eqb k) (map fst d)); reflexivity.
Qed.

Lemma dict_get_set (d : dict V) (k k' : str) (v : V) :
  dict_get (dict_set d k v) k'
  = if str_eqb k k' then Some v else dict_get d k'.
Proof.
  induction d as [|[k0 v0] d IH]; simpl; [reflexivity|].
  destruct (str_eqb k0 k) eqn:E; simpl.
  - apply str_eqb_eq in E. subst k0.
    destruct (str_eqb k k'); reflexivity.
  - destruct (str_eqb k0 k') eqn:E0; [|exact IH].
    apply str_eqb_eq in E0. subst k'.
    assert (E' : str_eqb k k0 = false).
    { apply str_eqb_neq. apply str_eqb_neq in E. congruence. }
    rewrite E'. reflexivity.
Qed.

(** The keys of [{**d, **e}]: those of [d] in their order, then the keys of
    [e] that [d] does not have. *)
Lemma keys_dict_merge (e : dict V) :
  NoDup (keys e) ->
  forall d : dict V,
    keys (dict_merge d e)
    = keys d ++ filter (fun k => negb (existsb (str_eqb k) (keys d))) (keys e).
Proof.
  unfold dict_merge.
  induction e as [|[k v] e IH]; intros Hnd d; simpl.
  - symmetry; apply app_nil_r.
  - simpl in Hnd. inversion Hnd as [|? ? Hk Hnd']; subst.
    rewrite (IH Hnd'), keys_dict_set.
    destruct (existsb (str_eqb k) (keys d)) eqn:E; simpl; [reflexivity|].
    rewrite <- app_assoc. simpl. f_equal. f_equal.
    apply filter_ext_in. intros x Hx.
    rewrite existsb_app. simpl. rewrite orb_false_r.
    assert (Hxk : str_eqb x k = false).
    { apply str_eqb_neq. intros ->. contradiction. }
    rewrite Hxk, orb_false_r. reflexivity.
Qed.

Lemma dict_get_merge_other (e : dict V) (k : str) :
  ~ In k (keys e) ->
  forall d : dict V, dict_get (dict_merge d e) k = dict_get d k.
Proof.
  unfold dict_merge.
  induction e as [|[k0 v0] e IH]; intros Hk d; simpl; [reflexivity|].
  simpl in Hk. rewrite IH by tauto. rewrite dict_get_set.
  assert (E : str_eqb k0 k = false) by (apply str_eqb_neq; tauto).
  rewrite E. reflexivity.
Qed.

(** An entry of [e] is found in [{**d, **e}] with the value [e] gives it. *)
Lemma dict_get_merge_entry (e : dict V) (k : str) (v : V) :
  NoDup (keys e) -> In (k, v) e ->
  forall d : dict V, dict_get (dict_merge d e) k = Some v.
Proof.
  induction e as [|[k0 v0] e IH]; intros Hnd Hin d; [destruct Hin|].
  simpl in Hnd. inversion Hnd as [|? ? Hk Hnd']; subst.
  destruct Hin as [E | Hin].
  - injection E as -> ->.
    change (dict_merge d ((k, v) :: e)) with (dict_merge (dict_set d k v) e).
    rewrite dict_get_merge_other by assumption.
    rewrite dict_get_set, str_eqb_refl. reflexivity.
  - change (dict_merge d ((k0, v0) :: e)) with (dict_merge (dict_set d k0 v0) e).
    apply IH; assumption.
Qed.

End DictFacts.

(* ================================================================= *)
(** ** ResponseParser *)

Section ParserFacts.

Variable cfg : Config.
Variable ext : Externals.

(** [add_metadata] on mappings: the clock is read once for each item, and
    the i-th record is merged into the provenance fields read then. *)
Lemma add_metadata_dicts (pdf_name : str) (items : list (dict Json)) :
  forall w : World,
  exists records,
    add_metadata cfg ext pdf_name (map JDict items) w
    = Some (Ok records, set_clock_reads w (clock_reads w + length items))
    /\ length records = length items
    /\ forall i item,
        nth_error items i = Some item ->
        nth_error records i
        = Some (dict_merge
                  (metadata cfg pdf_name (clock ext (clock_reads w + i))) item).
Proof.
  induction items as [|d items IH]; intros w; simpl.
  - exists []. split; [|split; [reflexivity|]].
    + unfold ret. do 2 f_equal. destruct w; unfold set_clock_reads; simpl.
      rewrite Nat.add_0_r. reflexivity.
    + intros [|i] item; discriminate.
  - destruct (IH (set_clock_reads w (S (clock_reads w))))
      as (records & E & Hlen & Hnth).
    eexists. split; [|split].
    + unfold bind, datetime_now. rewrite E. unfold ret. do 2 f_equal.
      destruct w; unfold set_clock_reads; simpl. f_equal. lia.
    + simpl. rewrite Hlen. reflexivity.
    + intros [|i] item Hi; simpl in *.
      * injection Hi as <-. rewrite Nat.add_0_r. reflexivity.
      * rewrite (Hnth i item Hi). simpl.
        replace (S (clock_reads w + i)) with (clock_reads w + S i) by lia.
        reflexivity.
Qed.

(** A parse failure makes [process_pdf] return nothing and record the
    failure. *)
Lemma process_pdf_parse_failure
    (fuel : nat) (pdf_path : Path) (w w1 : World) (response_text msg : str) :
  on_disk w pdf_path ->
  provider cfg = py "gemini" ->
  _process_with_gemini ext fuel pdf_path w = Some (Ok response_text, w1) ->
  response_text <> [] ->
  parse_response ext response_text = Raise msg ->
  exists w2,
    process_pdf cfg ext fuel pdf_path w = Some (None, w2)
    /\ processed (checkpoint w2) = processed (checkpoint w1)
    /\ failed (checkpoint w2)
       = failed (checkpoint w1)
         ++ [mkFail (name pdf_path) msg (clock ext (clock_reads w1))].
Proof.
  intros Hex Hprov Hcall Hne Hparse.
  unfold process_pdf, bind. rewrite path_exists_eq.
  rewrite (proj2 (on_disk_iff _ _) Hex). simpl.
  unfold process_pdf_try, bind. rewrite Hprov, str_eqb_refl.
  rewrite Hcall.
  destruct response_text as [|c r]; [congruence|].
  set (wd := if debug_mode cfg
             then set_outputs w1
                    ((joinpath (output_dir cfg)
                               (py "DEBUG_" ++ stem pdf_path ++ py ".txt"),
                      TextFile (c :: r)) :: outputs w1)
             else w1).
  assert (Hwd : (if debug_mode cfg
                 then write_output
                        (joinpath (output_dir cfg)
                                  (py "DEBUG_" ++ stem pdf_path ++ py ".txt"))
                        (TextFile (c :: r))
                 else ret tt) w1 = Some (tt, wd)).
  { unfold wd. destruct (debug_mode cfg); reflexivity. }
  rewrite Hwd. unfold ret at 1. rewrite Hparse. unfold ret. simpl.
  eexists. split; [reflexivity|].
  unfold wd. destruct (debug_mode cfg); simpl; split; reflexivity.
Qed.

(** An empty reply is no result either. *)
Lemma process_pdf_empty_reply
    (fuel : nat) (pdf_path : Path) (w w1 : World) :
  on_disk w pdf_path ->
  provider cfg = py "gemini" ->
  _process_with_gemini ext fuel pdf_path w = Some (Ok [], w1) ->
  exists w2,
    process_pdf cfg ext fuel pdf_path w = Some (None, w2)
    /\ processed (checkpoint w2) = processed (checkpoint w1)
    /\ failed (checkpoint w2)
       = failed (checkpoint w1)
         ++ [mkFail (name pdf_path) (py "Empty response from API")
                    (clock ext (clock_reads w1))].
Proof.
  intros Hex Hprov Hcall.
  unfold process_pdf, bind. rewrite path_exists_eq.
  rewrite (proj2 (on_disk_iff _ _) Hex). simpl.
  unfold process_pdf_try, bind. rewrite Hprov, str_eqb_refl.
  rewrite Hcall. unfold ret. simpl.
  eexists. split; [reflexivity|]. simpl. split; reflexivity.
Qed.

End ParserFacts.

(** C3.  After fence stripping: a parsed sequence is used as it is; a parsed
    single mapping gives the one-element sequence holding it; every other
    parsed value (null, a boolean, a number, a string) and every text that
    [json.loads] rejects makes the parse raise; a parse that raises makes
    [process_pdf] return no result at all and append one failure record for
    the document, and so does an empty reply. *)
Theorem parse_response_shapes
    (cfg : Config) (ext : Externals) (response_text : str) :
  let cleaned := strip_fences response_text in
  (forall l, json_loads ext cleaned = Ok (JList l) ->
             parse_response ext response_text = Ok l)
  /\ (forall d, json_loads ext cleaned = Ok (JDict d) ->
                parse_response ext response_text = Ok [JDict d])
  /\ (forall v, json_loads ext cleaned = Ok v ->
                (forall l, v <> JList l) -> (forall d, v <> JDict d) ->
                parse_response ext response_text
                = Raise (py "Output is not a valid JSON list"))
  /\ (forall msg, json_loads ext cleaned = Raise msg ->
                  parse_response ext response_text = Raise msg)
  /\ (forall fuel pdf_path w w1 msg,
        on_disk w pdf_path ->
        provider cfg = py "gemini" ->
        _process_with_gemini ext fuel pdf_path w = Some (Ok response_text, w1) ->
        response_text <> [] ->
        parse_response ext response_text = Raise msg ->
        exists w2,
          process_pdf cfg ext fuel pdf_path w = Some (None, w2)
          /\ processed (checkpoint w2) = processed (checkpoint w1)
          /\ failed (checkpoint w2)
             = failed (checkpoint w1)
               ++ [mkFail (name pdf_path) msg (clock ext (clock_reads w1))])
  /\ (forall fuel pdf_path w w1,
        on_disk w pdf_path ->
        provider cfg = py "gemini" ->
        _process_with_gemini ext fuel pdf_path w = Some (Ok [], w1) ->
        exists w2,
          process_pdf cfg ext fuel pdf_path w = Some (None, w2)
          /\ processed (checkpoint w2) = processed (checkpoint w1)
          /\ failed (checkpoint w2)
             = failed (checkpoint w1)
               ++ [mkFail (name pdf_path) (py "Empty response from API")
                          (clock ext (clock_reads w1))]).
Proof.
  intros cleaned. unfold parse_response. fold cleaned.
  split; [|split; [|split; [|split; [|split]]]].
  - intros l ->. reflexivity.
  - intros d ->. reflexivity.
  - intros v -> Hl Hd. destruct v; try reflexivity.
    + exfalso. exact (Hl _ eq_refl).
    + exfalso. exact (Hd _ eq_refl).
  - intros msg ->. reflexivity.
  - intros fuel pdf_path w w1 msg. apply process_pdf_parse_failure.
  - intros fuel pdf_path w w1. apply process_pdf_empty_reply.
Qed.

(** The three provenance keys. *)
Lemma metadata_keys (cfg : Config) (pdf_name now : str) :
  keys (metadata cfg pdf_name now)
  = [py "source_pdf"; py "extracted_at"; py "provider"].
Proof. reflexivity. Qed.

(** C8.  For every list of parsed records (mappings, whose keys are
    distinct as in every Python dict), [add_metadata] returns one output
    record for each, built from the provenance fields read at that moment:
    its first three keys are source_pdf, extracted_at and provider, in this
    order; the keys after them are the record's other keys in their order;
    every field of the record is found in the output with the record's
    value, so a record field named like a provenance field overwrites the
    provenance value; a provenance field the record does not name keeps the
    provenance value. *)
Theorem add_metadata_provenance
    (cfg : Config) (ext : Externals) (pdf_name : str)
    (items : list (dict Json)) (w : World) :
  Forall (fun d => NoDup (keys d)) items ->
  exists records w',
    add_metadata cfg ext pdf_name (map JDict items) w = Some (Ok records, w')
    /\ length records = length items
    /\ forall i item,
        nth_error items i = Some item ->
        exists out,
          nth_error records i = Some out
          /\ let meta := metadata cfg pdf_name (clock ext (clock_reads w + i)) in
             out = dict_merge meta item
             /\ firstn 3 (keys out)
                = [py "source_pdf"; py "extracted_at"; py "provider"]
             /\ skipn 3 (keys out)
                = filter (fun k => negb (existsb (str_eqb k) (keys meta)))
                         (keys item)
             /\ (forall k v, In (k, v) item -> dict_get out k = Some v)
             /\ (forall k, ~ In k (keys item) ->
                           dict_get out k = dict_get meta k).
Proof.
  intros Hnd.
  destruct (add_metadata_dicts cfg ext pdf_name items w)
    as (records & E & Hlen & Hnth).
  exists records. eexists. split; [exact E|]. split; [exact Hlen|].
  intros i item Hi. eexists. split; [exact (Hnth i item Hi)|].
  { cbv zeta.
      assert (Hitem : NoDup (keys item)).
      { rewrite Forall_forall in Hnd. apply Hnd.
        eapply nth_error_In; eassumption. }
      split; [reflexivity|].
      rewrite (keys_dict_merge item Hitem), metadata_keys.
      split; [reflexivity|]. split; [reflexivity|]. split.
      * intros k v Hkv. apply dict_get_merge_entry; assumption.
      * intros k Hk. apply dict_get_merge_other; assumption. }
Qed.
(* ================================================================= *)
(** ** The monad *)

Section MonadFacts.

Lemma bind_inv {A B : Type} (m : M A) (k : A -> M B) (w w2 : World) (b : B) :
  bind m k w = Some (b, w2) ->
  exists a w1, m w = Some (a, w1) /\ k a w1 = Some (b, w2).
Proof.
  unfold bind. destruct (m w) as [[a w1]|]; [|discriminate].
  intros H. exists a, w1. split; [reflexivity | exact H].
Qed.

Lemma bind_some {A B : Type} (m : M A) (k : A -> M B) (w w1 : World) (a : A) :
  m w = Some (a, w1) -> bind m k w = k a w1.
Proof. unfold bind. intros ->. reflexivity. Qed.

Lemma same_progress_refl (w : World) : same_progress w w.
Proof. repeat split. Qed.

Lemma same_progress_trans (w w1 w2 : World) :
  same_progress w w1 -> same_progress w1 w2 -> same_progress w w2.
Proof.
  unfold same_progress. intros (A1 & B1 & C1 & D1 & E1) (A2 & B2 & C2 & D2 & E2).
  repeat split; congruence.
Qed.

End MonadFacts.

Tactic Notation "inv_bind" hyp(H) "as" ident(a) ident(w) ident(Ha) :=
  apply bind_inv in H; destruct H as (a & w & Ha & H).

(* ================================================================= *)
(** ** The rename pass leaves the progress of the run alone *)

Section RenameFrame.

Variable cfg : Config.
Variable ext : Externals.

Lemma first_free_world (fuel : nat) (path : Path) :
  forall (c : nat) (w w' : World) (q : Path),
    first_free fuel path c w = Some (q, w') -> w' = w.
Proof.
  induction fuel as [|fuel IH]; intros c w w' q H; simpl in H; [discriminate|].
  unfold bind in H. rewrite path_exists_eq in H.
  destruct (existsb _ (fs w)); simpl in H.
  - eapply IH; eassumption.
  - injection H as _ <-. reflexivity.
Qed.

Lemma get_unique_path_world (fuel : nat) (path q : Path) (w w' : World) :
  get_unique_path fuel path w = Some (q, w') -> w' = w.
Proof.
  unfold get_unique_path, bind. rewrite path_exists_eq.
  destruct (existsb _ (fs w)); simpl.
  - apply first_free_world.
  - intros H. injection H as _ <-. reflexivity.
Qed.

Lemma rename_progress (src dst : Path) (w w' : World) (r : Exc unit) :
  rename src dst w = Some (r, w') -> same_progress w w'.
Proof.
  unfold rename, bind. rewrite path_exists_eq.
  destruct (existsb _ (fs w)); intros H; injection H as _ <-;
    repeat split.
Qed.

Lemma rename_one_progress (fuel : nat) (pdf_path : Path)
    (acc acc' : dict RenameEntry * nat) (w w' : World) :
  rename_one cfg ext fuel pdf_path acc w = Some (acc', w') ->
  same_progress w w'.
Proof.
  unfold rename_one.
  destruct (matches_doi_prefix ext (name pdf_path)).
  - intros H. injection H as _ <-. apply same_progress_refl.
  - intros H. inv_bind H as dt w1 Hdt.
    unfold extract_doi_and_title, gets in Hdt. injection Hdt as <- <-.
    inv_bind H as q w2 Hq. apply get_unique_path_world in Hq. subst w2.
    inv_bind H as r w3 Hr. apply rename_progress in Hr.
    destruct r as [[]|msg].
    + inv_bind H as now w4 Hnow. unfold datetime_now in Hnow.
      injection Hnow as <- <-.
      unfold ret in H. injection H as _ <-.
      destruct Hr as (A & B & C & D & E). repeat split; assumption.
    + injection H as _ <-. exact Hr.
Qed.

Lemma rename_loop_progress (fuel : nat) (pdf_files : list Path) :
  forall (acc acc' : dict RenameEntry * nat) (w w' : World),
    rename_loop cfg ext fuel pdf_files acc w = Some (acc', w') ->
    same_progress w w'.
Proof.
  induction pdf_files as [|p rest IH]; intros acc acc' w w' H; simpl in H.
  - injection H as _ <-. apply same_progress_refl.
  - inv_bind H as acc1 w1 H1. eapply same_progress_trans.
    + eapply rename_one_progress; eassumption.
    + eapply IH; eassumption.
Qed.

Lemma rename_input_pdfs_progress (fuel n : nat) (w w' : World) :
  rename_input_pdfs cfg ext fuel w = Some (n, w') -> same_progress w w'.
Proof.
  unfold rename_input_pdfs.
  destruct (rename_pdfs cfg); simpl;
    [|intros H; injection H as _ <-; apply same_progress_refl].
  destruct (HAS_PYMUPDF cfg); simpl;
    [|intros H; injection H as _ <-; apply same_progress_refl].
  intros H. inv_bind H as files w1 Hg.
  unfold glob_pdf, gets in Hg. injection Hg as <- <-.
  destruct (filter _ _) as [|p l] eqn:G.
  - injection H as _ <-. apply same_progress_refl.
  - inv_bind H as log w1 Hl.
    unfold _load_rename_log, gets in Hl. injection Hl as <- <-.
    inv_bind H as acc w2 Hloop. apply rename_loop_progress in Hloop.
    inv_bind H as u w3 Hs. unfold ret in H. injection H as _ <-.
    destruct (0 <? snd acc); unfold _save_rename_log, modify, ret in Hs;
      injection Hs as _ <-.
    + destruct Hloop as (A & B & C & D & E). repeat split; assumption.
    + exact Hloop.
Qed.

End RenameFrame.

(* ================================================================= *)
(** ** Discovery and [run] *)

Section RunFacts.

Variable cfg : Config.
Variable ext : Externals.

Lemma in_insert_sorted (p x : Path) (l : list Path) :
  In x (insert_sorted p l) <-> x = p \/ In x l.
Proof.
  induction l as [|q l IH]; simpl.
  - split; [intros [<-|[]]; auto | intros [->|[]]; auto].
  - destruct (Path_ltb q p); simpl; rewrite ?IH; intuition congruence.
Qed.

Lemma in_sorted (x : Path) (l : list Path) : In x (sorted l) <-> In x l.
Proof.
  induction l as [|p l IH]; simpl; [tauto|].
  rewrite in_insert_sorted, IH. intuition congruence.
Qed.

(** What the discovery step returns. *)
Lemma discover_eq (w : World) :
  discover cfg w
  = Some (filter (fun p => negb (existsb (str_eqb (name p))
                                         (processed (checkpoint w))))
                 (sorted (filter (is_input_pdf cfg) (paths w))),
          w).
Proof. reflexivity. Qed.

Lemma in_discover (w : World) (p : Path) :
  In p (filter (fun p => negb (existsb (str_eqb (name p))
                                       (processed (checkpoint w))))
               (sorted (filter (is_input_pdf cfg) (paths w))))
  <-> In p (paths w) /\ is_input_pdf cfg p = true
      /\ ~ In (name p) (processed (checkpoint w)).
Proof.
  rewrite filter_In, in_sorted, filter_In, negb_true_iff, not_in_existsb_str.
  tauto.
Qed.

End RunFacts.

(** C10.  When the document's file is not on disk as [process_pdf] begins,
    [process_pdf] returns no result, for every amount of fuel, and the world
    is left exactly as it was: nothing was uploaded to the service, and the
    processed names, the failure records and the checkpoint file are
    unchanged. *)
Theorem process_pdf_missing_file
    (cfg : Config) (ext : Externals) (fuel : nat) (pdf_path : Path) (w : World) :
  ~ on_disk w pdf_path ->
  exists w',
    process_pdf cfg ext fuel pdf_path w = Some (None, w')
    /\ w' = w
    /\ uploads w' = uploads w
    /\ processed (checkpoint w') = processed (checkpoint w)
    /\ failed (checkpoint w') = failed (checkpoint w)
    /\ checkpoint_file w' = checkpoint_file w.
Proof.
  intros Hoff. exists w. split; [|repeat split].
  unfold process_pdf, bind. rewrite path_exists_eq.
  rewrite (proj2 (on_disk_false _ _) Hoff). reflexivity.
Qed.

Lemma filter_none {A : Type} (f : A -> bool) (l : list A) :
  (forall x, In x l -> f x = false) -> filter f l = [].
Proof.
  induction l as [|x l IH]; intros H; simpl; [reflexivity|].
  rewrite (H x (or_introl eq_refl)). apply IH.
  intros y Hy. apply H. right; assumption.
Qed.

(** Skipping of processed documents, as far as the code does it.  A name
    in the processed list makes [_is_processed] answer true; whatever the
    order in which the directory lists its files, the discovery step returns
    exactly the PDF documents of the input directory whose names are not in
    the processed list, so no processed document is a candidate; and when
    every PDF document that the rename step leaves in the input directory is
    in the processed list, [run] ends there: nothing is uploaded and the
    checkpoint is as it was.  The rename step itself may give a processed
    document a name that is not in the list, so the last part speaks of the
    folder as that step leaves it. *)
Theorem processed_documents_are_skipped
    (cfg : Config) (ext : Externals) (w : World) :
  (forall pdf_name,
      In pdf_name (processed (checkpoint w)) ->
      _is_processed pdf_name w = Some (true, w))
  /\ (forall files,
        Permutation (fs w) files ->
        exists candidates,
          discover cfg (set_fs w files) = Some (candidates, set_fs w files)
          /\ (forall p, In p candidates <->
                         In p (paths w) /\ is_input_pdf cfg p = true
                         /\ ~ In (name p) (processed (checkpoint w)))
          /\ (forall p, In (name p) (processed (checkpoint w)) ->
                         ~ In p candidates))
  /\ (forall fuel max_papers n w1,
        (if rename_pdfs cfg then rename_input_pdfs cfg ext fuel else ret 0) w
        = Some (n, w1) ->
        (forall p, In p (paths w1) -> is_input_pdf cfg p = true ->
                   In (name p) (processed (checkpoint w1))) ->
        run cfg ext fuel max_papers w = Some (tt, w1)
        /\ uploads w1 = uploads w
        /\ checkpoint w1 = checkpoint w
        /\ checkpoint_file w1 = checkpoint_file w).
Proof.
  split; [|split].
  - intros pdf_name Hin. unfold _is_processed, gets.
    rewrite (proj2 (in_existsb_str _ _) Hin). reflexivity.
  - intros files Hperm. eexists. split; [apply discover_eq|].
    assert (Hp : forall p, In p (paths (set_fs w files)) <-> In p (paths w)).
    { intros p. unfold paths. simpl. split; intros H.
      - eapply Permutation_in; [apply Permutation_sym, Permutation_map, Hperm | exact H].
      - eapply Permutation_in; [apply Permutation_map, Hperm | exact H]. }
    split.
    + intros p. rewrite in_discover, Hp. simpl. tauto.
    + intros p Hin Hc. apply in_discover in Hc. simpl in Hc. tauto.
  - intros fuel max_papers n w1 Hren Hall.
    assert (Hrun : run cfg ext fuel max_papers w = Some (tt, w1)).
    { unfold run. rewrite (bind_some _ _ _ _ _ Hren).
      rewrite (bind_some _ _ _ _ _ (discover_eq cfg w1)).
      rewrite filter_none; [reflexivity|].
      intros p Hp. apply in_sorted, filter_In in Hp. destruct Hp as [Hp Hpdf].
      apply negb_false_iff, in_existsb_str, Hall; assumption. }
    split; [exact Hrun|].
    assert (Hpr : same_progress w w1).
    { destruct (rename_pdfs cfg).
      - eapply rename_input_pdfs_progress; eassumption.
      - injection Hren as _ <-. apply same_progress_refl. }
    destruct Hpr as (A & B & C & _). auto.
Qed.
(* ================================================================= *)
(** ** The rename pass *)

Section RenameFacts.

Variable cfg : Config.
Variable ext : Externals.

Lemma length_fs_rename (src dst : Path) (files : list (Path * str)) :
  length (fs_rename src dst files) <= length files.
Proof.
  unfold fs_rename. rewrite length_map. apply filter_length_le.
Qed.

(** Renaming [src] to [dst] keeps every other path that is on disk. *)
Lemma fs_rename_keeps (src dst x : Path) (files : list (Path * str)) :
  x <> src -> x <> dst ->
  In x (map fst files) -> In x (map fst (fs_rename src dst files)).
Proof.
  intros Hsrc Hdst Hin. unfold fs_rename.
  apply in_map_iff in Hin. destruct Hin as ([y bytes] & E & Hin).
  simpl in E. subst y.
  apply in_map_iff. exists (x, bytes). split; [reflexivity|].
  apply in_map_iff. exists (x, bytes). simpl.
  rewrite (proj2 (Path_eqb_neq x src) Hsrc). split; [reflexivity|].
  apply filter_In. split; [assumption|]. simpl.
  rewrite (proj2 (Path_eqb_neq x dst) Hdst). reflexivity.
Qed.

Lemma first_free_fresh (fuel : nat) (path : Path) :
  forall (c : nat) (w w' : World) (q : Path),
    first_free fuel path c w = Some (q, w') -> ~ In q (paths w).
Proof.
  induction fuel as [|fuel IH]; intros c w w' q H; simpl in H; [discriminate|].
  unfold bind in H. rewrite path_exists_eq in H.
  destruct (existsb _ (fs w)) eqn:E; simpl in H.
  - eapply IH; eassumption.
  - injection H as <- _. apply on_disk_false; assumption.
Qed.

(** What [get_unique_path] returns is not on disk. *)
Lemma get_unique_path_fresh (fuel : nat) (path q : Path) (w w' : World) :
  get_unique_path fuel path w = Some (q, w') -> ~ In q (paths w).
Proof.
  unfold get_unique_path, bind. rewrite path_exists_eq.
  destruct (existsb _ (fs w)) eqn:E; simpl.
  - apply first_free_fresh.
  - intros H. injection H as <- _. apply on_disk_false; assumption.
Qed.

(** With more fuel than files, [get_unique_path] returns. *)
Lemma get_unique_path_total (fuel : nat) (path : Path) (w : World) :
  length (fs w) < fuel ->
  exists q, get_unique_path fuel path w = Some (q, w).
Proof.
  intros Hfuel. unfold get_unique_path, bind. rewrite path_exists_eq.
  destruct (existsb _ (fs w)); simpl; [|eexists; reflexivity].
  destruct (least_free w path 2) as (n & Hn & Hfree & Hbelow).
  exists (numbered path n). apply first_free_least; try assumption; lia.
Qed.

(** A document whose name starts like a DOI is skipped. *)
Lemma rename_one_skip (fuel : nat) (pdf_path : Path)
    (acc : dict RenameEntry * nat) (w : World) :
  matches_doi_prefix ext (name pdf_path) = true ->
  rename_one cfg ext fuel pdf_path acc w = Some (acc, w).
Proof. unfold rename_one. intros ->. reflexivity. Qed.

(** One turn of the loop: with enough fuel it returns; the disk does not
    grow, the count grows by one at most, and every path other than the one
    visited stays on disk. *)
Lemma rename_one_spec (fuel : nat) (pdf_path : Path)
    (acc : dict RenameEntry * nat) (w : World) :
  length (fs w) < fuel ->
  exists acc' w',
    rename_one cfg ext fuel pdf_path acc w = Some (acc', w')
    /\ length (fs w') <= length (fs w)
    /\ snd acc' <= snd acc + (if matches_doi_prefix ext (name pdf_path)
                              then 0 else 1).
Proof.
  intros Hfuel. unfold rename_one.
  destruct (matches_doi_prefix ext (name pdf_path)).
  - exists acc, w. repeat split; lia.
  - unfold bind at 1. unfold extract_doi_and_title, gets.
    unfold rename_target.
    destruct (get_unique_path_total fuel
                (joinpath (input_dir cfg)
                   (canonical_name ext
                      (fst match fs_lookup pdf_path (fs w) with
                           | Some bytes => pdf_analysis ext bytes
                           | None => (None, py "Untitled")
                           end)
                      (snd match fs_lookup pdf_path (fs w) with
                           | Some bytes => pdf_analysis ext bytes
                           | None => (None, py "Untitled")
                           end))) w Hfuel) as (q & Hq).
    rewrite (bind_some _ _ _ _ _ Hq).
    unfold rename, bind. rewrite path_exists_eq.
    destruct (existsb _ (fs w)); simpl.
    + eexists. eexists. split; [reflexivity|]. simpl.
      split; [apply length_fs_rename | lia].
    + eexists. eexists. split; [reflexivity|]. simpl. split; lia.
Qed.

Lemma rename_one_keeps (fuel : nat) (pdf_path x : Path)
    (acc acc' : dict RenameEntry * nat) (w w' : World) :
  rename_one cfg ext fuel pdf_path acc w = Some (acc', w') ->
  x <> pdf_path -> In x (paths w) -> In x (paths w').
Proof.
  unfold rename_one.
  destruct (matches_doi_prefix ext (name pdf_path)).
  - intros H. injection H as _ <-. auto.
  - intros H Hx Hin. inv_bind H as dt w1 Hdt.
    unfold extract_doi_and_title, gets in Hdt. injection Hdt as <- <-.
    inv_bind H as q w2 Hq. unfold rename_target in Hq.
    pose proof (get_unique_path_fresh _ _ _ _ _ Hq) as Hfresh.
    apply get_unique_path_world in Hq. subst w2.
    inv_bind H as r w3 Hr.
    unfold rename, bind in Hr. rewrite path_exists_eq in Hr.
    destruct (existsb _ (fs w)).
    + injection Hr as <- <-. inv_bind H as now w4 Hnow.
      unfold datetime_now in Hnow. injection Hnow as <- <-.
      unfold ret in H. injection H as _ <-. unfold paths. simpl.
      apply fs_rename_keeps; try assumption.
      intros ->. contradiction.
    + injection Hr as <- <-. injection H as _ <-. assumption.
Qed.

Lemma rename_loop_keeps (fuel : nat) (pdf_files : list Path) (x : Path) :
  forall (acc acc' : dict RenameEntry * nat) (w w' : World),
    rename_loop cfg ext fuel pdf_files acc w = Some (acc', w') ->
    ~ In x pdf_files -> In x (paths w) -> In x (paths w').
Proof.
  induction pdf_files as [|p rest IH]; intros acc acc' w w' H Hx Hin;
    simpl in H.
  - injection H as _ <-. assumption.
  - inv_bind H as acc1 w1 H1. simpl in Hx.
    eapply IH; [eassumption | tauto |].
    eapply rename_one_keeps; [eassumption | | assumption].
    intros ->. tauto.
Qed.

(** The whole loop returns with enough fuel and renames no more documents
    than it visits with a name that does not start like a DOI. *)
Lemma rename_loop_spec (fuel : nat) (pdf_files : list Path) :
  forall (acc : dict RenameEntry * nat) (w : World),
    length (fs w) < fuel ->
    exists acc' w',
      rename_loop cfg ext fuel pdf_files acc w = Some (acc', w')
      /\ snd acc'
         <= snd acc
            + length (filter (fun p => negb (matches_doi_prefix ext (name p)))
                             pdf_files).
Proof.
  induction pdf_files as [|p rest IH]; intros acc w Hfuel; simpl.
  - exists acc, w. split; [reflexivity | lia].
  - destruct (rename_one_spec fuel p acc w Hfuel) as (acc1 & w1 & E1 & Hlen & Hn).
    destruct (IH acc1 w1 ltac:(lia)) as (acc2 & w2 & E2 & Hn2).
    exists acc2, w2. split.
    + rewrite (bind_some _ _ _ _ _ E1). exact E2.
    + destruct (matches_doi_prefix ext (name p)); simpl in *; lia.
Qed.

(** A loop over names that all start like a DOI changes nothing. *)
Lemma rename_loop_all_skipped (fuel : nat) (pdf_files : list Path) :
  forall (acc : dict RenameEntry * nat) (w : World),
    (forall p, In p pdf_files -> matches_doi_prefix ext (name p) = true) ->
    rename_loop cfg ext fuel pdf_files acc w = Some (acc, w).
Proof.
  induction pdf_files as [|p rest IH]; intros acc w Hall; simpl;
    [reflexivity|].
  rewrite (bind_some _ _ _ _ _
             (rename_one_skip fuel p acc w (Hall p (or_introl eq_refl)))).
  apply IH. intros q Hq. apply Hall. right; assumption.
Qed.

Lemma matches_doi_prefix_app (a b : str) :
  matches_doi_prefix ext a = true -> matches_doi_prefix ext (a ++ b) = true.
Proof.
  unfold matches_doi_prefix.
  destruct a as [|c1 [|c2 [|c3 [|d1 [|d2 [|d3 [|d4 a]]]]]]]; simpl;
    try discriminate;
    repeat match goal with
           | |- context [N.eqb ?x ?y] => destruct (N.eqb x y)
           | |- context [match ?c with 0%N => _ | N.pos _ => _ end] => destruct c
           | |- context [match ?c with xI _ => _ | xO _ => _ | xH => _ end] => destruct c
           end; try discriminate; auto.
Qed.

End RenameFacts.

(** What the rename pass does keep.  It skips every document whose name
    starts with [10.] and four decimal digits, which is the test it makes;
    the name it builds from an identifier whose cleaned form starts that way
    is of this kind.  A pass over a folder whose PDF names all start that
    way renames nothing and leaves the world as it is.  With more fuel than
    files the pass returns, having renamed at most as many documents as
    there are PDF names that do not start that way.  And no document is
    renamed twice in one pass: when the loop reaches a document, that
    document is still at the path under which it was listed, and the free
    path chosen for it is neither on disk nor among the paths the loop has
    still to visit. *)
Theorem rename_pass_skips_doi_prefixed_names
    (cfg : Config) (ext : Externals) (w : World) :
  let todo := filter (is_input_pdf cfg) (paths w) in
  let other p := negb (matches_doi_prefix ext (name p)) in
  (forall fuel pdf_path acc,
      matches_doi_prefix ext (name pdf_path) = true ->
      rename_one cfg ext fuel pdf_path acc w = Some (acc, w))
  /\ (forall d ds title,
        matches_doi_prefix ext (clean_filename (normalize ext) (d :: ds) 50) = true ->
        matches_doi_prefix ext (canonical_name ext (Some (d :: ds)) title) = true)
  /\ ((forall p, In p todo -> matches_doi_prefix ext (name p) = true) ->
      forall fuel, rename_input_pdfs cfg ext fuel w = Some (0, w))
  /\ (forall fuel,
        length (fs w) < fuel ->
        exists n w1,
          rename_input_pdfs cfg ext fuel w = Some (n, w1)
          /\ n <= length (filter other todo))
  /\ (NoDup (paths w) ->
      forall fuel a p b acc acc_a wa dt q w',
        todo = a ++ p :: b ->
        rename_loop cfg ext fuel a acc w = Some (acc_a, wa) ->
        rename_target cfg ext fuel dt wa = Some (q, w') ->
        In p (paths wa) /\ ~ In q (paths wa) /\ ~ In q b).
Proof.
  intros todo other. split; [|split; [|split; [|split]]].
  - intros fuel pdf_path acc. apply rename_one_skip.
  - intros d ds title H. unfold canonical_name.
    apply matches_doi_prefix_app. exact H.
  - intros Hall fuel. unfold rename_input_pdfs.
    destruct (rename_pdfs cfg); [|reflexivity].
    destruct (HAS_PYMUPDF cfg); [|reflexivity]. simpl.
    unfold bind at 1. unfold glob_pdf, gets.
    change (filter _ (map fst (fs w))) with todo.
    destruct todo as [|p l] eqn:E; [reflexivity|].
    unfold bind at 1. unfold _load_rename_log, gets.
    rewrite (bind_some _ _ _ _ _
               (rename_loop_all_skipped cfg ext fuel (p :: l) _ w Hall)).
    reflexivity.
  - intros fuel Hfuel. unfold rename_input_pdfs.
    destruct (rename_pdfs cfg); [|exists 0, w; split; [reflexivity | lia]].
    destruct (HAS_PYMUPDF cfg); [|exists 0, w; split; [reflexivity | lia]].
    simpl. unfold bind at 1. unfold glob_pdf, gets.
    change (filter _ (map fst (fs w))) with todo.
    destruct todo as [|p l] eqn:E; [exists 0, w; split; [reflexivity | lia]|].
    unfold bind at 1. unfold _load_rename_log, gets.
    destruct (rename_loop_spec cfg ext fuel (p :: l)
                (match renamed_log w with Some l0 => l0 | None => [] end, 0)
                w Hfuel) as (acc' & w1 & Eloop & Hn).
    rewrite (bind_some _ _ _ _ _ Eloop).
    destruct (0 <? snd acc') eqn:Epos.
    + eexists. eexists. split; [reflexivity|]. exact Hn.
    + eexists. eexists. split; [reflexivity|]. exact Hn.
  - intros Hnd fuel a p b acc acc_a wa dt q w' Htodo Hloop Hq.
    unfold rename_target in Hq.
    pose proof (get_unique_path_fresh _ _ _ _ _ Hq) as Hfresh.
    assert (Hndt : NoDup (a ++ p :: b)).
    { rewrite <- Htodo. apply NoDup_filter. exact Hnd. }
    assert (Hon : forall x, In x (p :: b) -> In x (paths wa)).
    { intros x Hx.
      eapply rename_loop_keeps; [exact Hloop | |].
      - intros Hxa. clear - Hndt Hx Hxa.
        induction a as [|y a IH]; [destruct Hxa|].
        simpl in Hndt. inversion Hndt as [|? ? Hy Hnd']; subst.
        destruct Hxa as [->|Hxa]; [|auto].
        apply Hy. apply in_or_app. right. exact Hx.
      - assert (Hin : In x todo).
        { rewrite Htodo. apply in_or_app. right. exact Hx. }
        apply filter_In in Hin. tauto. }
    split; [apply Hon; left; reflexivity|]. split; [exact Hfresh|].
    intros Hqb. apply Hfresh, Hon. right; exact Hqb.
Qed.
(* ================================================================= *)
(** ** The processing loop *)

Section LoopFacts.

Variable cfg : Config.
Variable ext : Externals.

Lemma wait_frame (fuel : nat) (sub : Submission) :
  forall (k : nat) (state : FileState) (w w' : World) (r : Exc FileState),
    wait_while_processing fuel sub k state w = Some (r, w') ->
    fs w' = fs w /\ uploads w' = uploads w.
Proof.
  induction fuel as [|fuel IH]; intros k state w w' r H; simpl in H.
  - destruct (is_processing state); [discriminate|].
    injection H as _ <-. split; reflexivity.
  - destruct (is_processing state).
    + unfold bind, sleep, modify, ret in H.
      destruct (get_file sub (S k)) as [st|msg].
      * apply IH in H. simpl in H. exact H.
      * injection H as _ <-. split; reflexivity.
    + injection H as _ <-. split; reflexivity.
Qed.

(** A call of the client uploads the document and leaves the disk alone. *)
Lemma process_with_gemini_frame
    (fuel : nat) (p : Path) (w w' : World) (r : Exc str) :
  _process_with_gemini ext fuel p w = Some (r, w') ->
  fs w' = fs w /\ uploads w' = p :: uploads w.
Proof.
  unfold _process_with_gemini. intros H.
  inv_bind H as n w1 Hn. unfold gets in Hn. injection Hn as <- <-.
  inv_bind H as u w2 Hu. unfold modify in Hu. injection Hu as _ <-.
  inv_bind H as up w3 Hup. unfold ret in Hup. injection Hup as <- <-.
  destruct (upload_file _) as [st|msg];
    [|injection H as _ <-; split; reflexivity].
  inv_bind H as st' w4 Hw. apply wait_frame in Hw. simpl in Hw.
  destruct Hw as [Hfs Hupl].
  destruct st' as [st'|msg]; [|injection H as _ <-; split; assumption].
  destruct (is_failed st'); [injection H as _ <-; split; assumption|].
  unfold bind, ret in H.
  destruct (generate_content _); [|injection H as _ <-; split; assumption].
  destruct (delete_file _); injection H as _ <-; split; assumption.
Qed.

Lemma add_metadata_frame (pdf_name : str) (items : list Json) :
  forall (w w' : World) (r : Exc (list (dict Json))),
    add_metadata cfg ext pdf_name items w = Some (r, w') ->
    fs w' = fs w /\ uploads w' = uploads w.
Proof.
  induction items as [|item items IH]; intros w w' r H; simpl in H.
  - injection H as _ <-. split; reflexivity.
  - inv_bind H as now w1 Hnow. unfold datetime_now in Hnow.
    injection Hnow as <- <-.
    assert (Hdone : forall (x : Exc (list (dict Json))),
               ret x (set_clock_reads w (S (clock_reads w))) = Some (r, w') ->
               fs w' = fs w /\ uploads w' = uploads w).
    { intros x Hx. injection Hx as _ <-. split; reflexivity. }
    destruct item; try (eapply Hdone; eassumption).
    inv_bind H as items' w2 Hrest. apply IH in Hrest. simpl in Hrest.
    destruct items'; injection H as _ <-; exact Hrest.
Qed.

Lemma process_pdf_try_frame
    (fuel : nat) (p : Path) (w w' : World) (r : Exc (list (dict Json))) :
  provider cfg = py "gemini" ->
  process_pdf_try cfg ext fuel p w = Some (r, w') ->
  fs w' = fs w /\ uploads w' = p :: uploads w.
Proof.
  intros Hprov H. unfold process_pdf_try in H.
  rewrite Hprov, str_eqb_refl in H.
  inv_bind H as reply w1 Hcall. apply process_with_gemini_frame in Hcall.
  destruct Hcall as [Hfs Hup].
  destruct reply as [text|msg]; [|injection H as _ <-; split; assumption].
  destruct text as [|c text]; [injection H as _ <-; split; assumption|].
  inv_bind H as u w2 Hdbg.
  assert (Hw2 : fs w2 = fs w1 /\ uploads w2 = uploads w1).
  { destruct (debug_mode cfg); injection Hdbg as _ <-; split; reflexivity. }
  destruct Hw2 as [Hfs2 Hup2].
  inv_bind H as parsed w3 Hparse. unfold ret in Hparse.
  injection Hparse as <- <-.
  destruct (parse_response ext (c :: text)) as [materials|msg].
  - apply add_metadata_frame in H. destruct H as [Hfs3 Hup3].
    split; congruence.
  - injection H as _ <-. split; congruence.
Qed.

(** [process_pdf] leaves the disk alone; it uploads the document when the
    document is on disk. *)
Lemma process_pdf_frame
    (fuel : nat) (p : Path) (w w' : World) (r : option (list (dict Json))) :
  provider cfg = py "gemini" ->
  process_pdf cfg ext fuel p w = Some (r, w') ->
  fs w' = fs w
  /\ (In p (paths w) -> uploads w' = p :: uploads w)
  /\ (~ In p (paths w) -> uploads w' = uploads w).
Proof.
  intros Hprov H. unfold process_pdf in H.
  inv_bind H as ex w1 Hex. rewrite path_exists_eq in Hex.
  injection Hex as <- <-.
  destruct (existsb _ (fs w)) eqn:E; simpl in H.
  - apply on_disk_iff in E.
    inv_bind H as res w1 Htry. apply process_pdf_try_frame in Htry; [|assumption].
    destruct Htry as [Hfs Hup].
    assert (Hfin : fs w' = fs w1 /\ uploads w' = uploads w1).
    { destruct res as [materials|msg].
      - injection H as _ <-. split; reflexivity.
      - inv_bind H as u w2 Hmark.
        destruct (mark_failed_eq ext (name p) msg w1)
          as (w2' & E2 & _ & _ & _ & _ & Hfs2 & Hup2 & _).
        rewrite E2 in Hmark. injection Hmark as _ <-.
        injection H as _ <-. split; assumption. }
    destruct Hfin as [Hfs' Hup'].
    split; [congruence|]. split; [intros _; congruence | intros Hn; contradiction].
  - apply on_disk_false in E. injection H as _ <-.
    split; [reflexivity|]. split; [intros Hin; contradiction | reflexivity].
Qed.

Lemma processed_dir_is_not_input_dir : processed_dir cfg <> input_dir cfg.
Proof.
  unfold processed_dir, input_dir. intros E.
  apply (f_equal (@length char)) in E. rewrite length_app in E.
  simpl in E. lia.
Qed.

(** One turn of the loop: uploads only grow, the document is uploaded when
    it is on disk, and the other documents of the input directory stay. *)
Lemma process_one_frame
    (fuel : nat) (p : Path) (all_data all_data' : list (dict Json))
    (w w' : World) :
  provider cfg = py "gemini" ->
  process_one cfg ext fuel p all_data w = Some (all_data', w') ->
  (forall x, In x (uploads w) -> In x (uploads w'))
  /\ (In p (paths w) -> In p (uploads w'))
  /\ (forall x, x <> p -> parent x = input_dir cfg ->
                In x (paths w) -> In x (paths w')).
Proof.
  intros Hprov H. unfold process_one in H.
  inv_bind H as data w1 Hpdf.
  destruct (process_pdf_frame fuel p w w1 data Hprov Hpdf) as (Hfs & Hon & Hoff).
  inv_bind H as d w2 Hstep. inv_bind H as u w3 Hsleep.
  unfold sleep, modify in Hsleep. injection Hsleep as _ <-.
  unfold ret in H. injection H as _ <-. simpl.
  assert (Hw2 : uploads w2 = uploads w1
                /\ forall x, x <> p -> parent x = input_dir cfg ->
                             In x (paths w1) -> In x (paths w2)).
  { destruct data as [[|rec records]|];
      try (injection Hstep as _ <-; split; [reflexivity | auto]).
    inv_bind Hstep as u1 wa Hwrite. unfold write_output, modify in Hwrite.
    injection Hwrite as _ <-.
    inv_bind Hstep as u2 wb Hmark.
    destruct (mark_processed_eq ext (name p) (length (rec :: records))
                (set_outputs w1
                   ((joinpath (output_dir cfg) (stem p ++ py ".json"),
                     JsonFile (rec :: records)) :: outputs w1)))
      as (wb' & Eb & _ & _ & _ & _ & Hfsb & Hupb & _).
    rewrite Eb in Hmark. injection Hmark as _ <-.
    inv_bind Hstep as r wc Hmove. unfold ret in Hstep. injection Hstep as _ <-.
    unfold rename, bind in Hmove. rewrite path_exists_eq in Hmove.
    destruct (existsb _ (fs wb')); injection Hmove as _ <-; simpl.
    - split; [exact Hupb|]. intros x Hx Hpar Hin. unfold paths. simpl.
      apply fs_rename_keeps; [assumption | | rewrite Hfsb; exact Hin].
      intros ->. simpl in Hpar. exact (processed_dir_is_not_input_dir Hpar).
    - split; [exact Hupb|]. intros x Hx Hpar Hin. unfold paths.
      rewrite Hfsb. exact Hin. }
  destruct Hw2 as [Hup2 Hkeep]. rewrite Hup2.
  split; [|split].
  - intros x Hx. destruct (in_dec Path_eq_dec p (paths w)) as [Hin|Hnin].
    + rewrite (Hon Hin). right; exact Hx.
    + rewrite (Hoff Hnin). exact Hx.
  - intros Hin. rewrite (Hon Hin). left; reflexivity.
  - intros x Hx Hpar Hin. apply Hkeep; try assumption.
    unfold paths. rewrite Hfs. exact Hin.
Qed.

(** The loop uploads every document of its list that is on disk in the
    input directory when the loop starts. *)
Lemma process_all_uploads (fuel : nat) (to_process : list Path) :
  forall (all_data all_data' : list (dict Json)) (w w' : World),
    provider cfg = py "gemini" ->
    process_all cfg ext fuel to_process all_data w = Some (all_data', w') ->
    (forall x, In x (uploads w) -> In x (uploads w'))
    /\ (forall p, In p to_process -> parent p = input_dir cfg ->
                  In p (paths w) -> In p (uploads w')).
Proof.
  induction to_process as [|q rest IH]; intros all_data all_data' w w' Hprov H;
    simpl in H.
  - injection H as _ <-. split; [auto | intros p []].
  - inv_bind H as d w1 Hone.
    destruct (process_one_frame fuel q all_data d w w1 Hprov Hone)
      as (Hmono & Hq & Hkeep).
    destruct (IH d all_data' w1 w' Hprov H) as (Hmono' & Hrest).
    split; [auto|].
    intros p Hp Hpar Hin.
    destruct (Path_eq_dec p q) as [->|Hne].
    + apply Hmono'. apply Hq. exact Hin.
    + destruct Hp as [->|Hp]; [congruence|].
      apply Hrest; try assumption. apply Hkeep; assumption.
Qed.

End LoopFacts.

(** C9.  A limit of 0 does not cut the list of candidates: [limit] returns
    the whole list, and [run] with the limit 0 is [run] without a limit, on
    every world and for every amount of fuel: after the rename pass it hands
    every candidate the discovery step found to the processing loop, so that
    a run that ends has uploaded every PDF document of the input directory
    that was not in the processed list. *)
Theorem zero_limit_is_no_limit
    (cfg : Config) (ext : Externals) (fuel : nat) (w : World) :
  (forall to_process, limit (Some 0%Z) to_process = to_process)
  /\ run cfg ext fuel (Some 0%Z) w = run cfg ext fuel None w
  /\ run cfg ext fuel (Some 0%Z) w
     = ((if rename_pdfs cfg then rename_input_pdfs cfg ext fuel else ret 0) ;;;
        to_process <- discover cfg ;;
        match to_process with
        | [] => ret tt
        | _ => all_data <- process_all cfg ext fuel to_process [] ;;
               save_combined cfg ext all_data
        end) w
  /\ (forall n w1 w',
        provider cfg = py "gemini" ->
        (if rename_pdfs cfg then rename_input_pdfs cfg ext fuel else ret 0) w
        = Some (n, w1) ->
        run cfg ext fuel (Some 0%Z) w = Some (tt, w') ->
        forall p, In p (paths w1) -> is_input_pdf cfg p = true ->
                  ~ In (name p) (processed (checkpoint w1)) ->
                  In p (uploads w')).
Proof.
  split; [reflexivity|]. split; [reflexivity|]. split; [reflexivity|].
  intros n w1 w' Hprov Hren Hrun p Hp Hpdf Hnew.
  unfold run in Hrun. rewrite (bind_some _ _ _ _ _ Hren) in Hrun.
  rewrite (bind_some _ _ _ _ _ (discover_eq cfg w1)) in Hrun.
  assert (Hcand : In p (filter
                          (fun p => negb (existsb (str_eqb (name p))
                                                  (processed (checkpoint w1))))
                          (sorted (filter (is_input_pdf cfg) (paths w1))))).
  { apply in_discover. auto. }
  destruct (filter _ (sorted _)) as [|c cs] eqn:E; [destruct Hcand|].
  change (limit (Some 0%Z) (c :: cs)) with (c :: cs) in Hrun.
  inv_bind Hrun as all_data w2 Hall.
  destruct (process_all_uploads cfg ext fuel (c :: cs) [] all_data w1 w2
              Hprov Hall) as (_ & Hup).
  assert (Hsave : uploads w' = uploads w2).
  { unfold save_combined in Hrun. destruct all_data as [|d ds].
    - injection Hrun as <-. reflexivity.
    - unfold bind, write_output, modify in Hrun.
      destruct (to_excel ext (d :: ds)); injection Hrun as <-; reflexivity. }
  rewrite Hsave. apply Hup; try assumption.
  unfold is_input_pdf in Hpdf. apply andb_true_iff in Hpdf.
  destruct Hpdf as [Hpar _]. apply str_eqb_eq in Hpar. exact Hpar.
Qed.

(** C9 on two fresh documents: with the limit 0 both are uploaded, with
    the limit 1 only the first. *)
Lemma zero_limit_is_no_limit_witness :
  (exists w',
      run demo_cfg demo_ext 2 (Some 0%Z) two_documents = Some (tt, w')
      /\ In (in_papers "a.pdf") (uploads w')
      /\ In (in_papers "b.pdf") (uploads w'))
  /\ option_map (fun r => uploads (snd r))
                (run demo_cfg demo_ext 2 (Some 1%Z) two_documents)
     = Some [in_papers "a.pdf"].
Proof.
  split; [|vm_compute; reflexivity].
  destruct (zero_limit_is_no_limit demo_cfg demo_ext 2 two_documents)
    as (_ & _ & _ & Hall).
  destruct (run demo_cfg demo_ext 2 (Some 0%Z) two_documents)
    as [[[] w']|] eqn:E; [|vm_compute in E; discriminate E].
  exists w'. split; [reflexivity|].
  split; apply (Hall 0 two_documents w' eq_refl eq_refl eq_refl);
    try (vm_compute; auto; fail); not_on_disk.
Defined.
(* ================================================================= *)
(** ** A run over a folder without new documents *)

(** When the rename step cannot rename anything (it is switched off,
    PyMuPDF is missing, or every PDF name of the input directory starts like
    a DOI) and every PDF document of the input directory is in the processed
    list, [run] does nothing at all, for every limit and every amount of
    fuel. *)
Lemma run_without_new_documents
    (cfg : Config) (ext : Externals) (w : World) :
  rename_pdfs cfg = false \/ HAS_PYMUPDF cfg = false
  \/ (forall p, In p (paths w) -> is_input_pdf cfg p = true ->
                matches_doi_prefix ext (name p) = true) ->
  (forall p, In p (paths w) -> is_input_pdf cfg p = true ->
             In (name p) (processed (checkpoint w))) ->
  forall fuel max_papers, run cfg ext fuel max_papers w = Some (tt, w).
Proof.
  intros Hquiet Hall fuel max_papers.
  assert (Hren : (if rename_pdfs cfg then rename_input_pdfs cfg ext fuel
                  else ret 0) w = Some (0, w)).
  { destruct (rename_pdfs cfg) eqn:Er; [|reflexivity].
    destruct Hquiet as [H | [H | H]]; [discriminate | |].
    - unfold rename_input_pdfs. rewrite Er, H. reflexivity.
    - unfold rename_input_pdfs. rewrite Er. simpl.
      destruct (HAS_PYMUPDF cfg); [|reflexivity]. simpl.
      unfold bind at 1. unfold glob_pdf, gets.
      change (filter _ (map fst (fs w)))
        with (filter (is_input_pdf cfg) (paths w)).
      destruct (filter (is_input_pdf cfg) (paths w)) as [|p l] eqn:E;
        [reflexivity|].
      unfold bind at 1. unfold _load_rename_log, gets.
      rewrite (bind_some _ _ _ _ _
                 (rename_loop_all_skipped cfg ext fuel (p :: l) _ w
                    ltac:(intros q Hq; rewrite <- E in Hq;
                          apply filter_In in Hq; destruct Hq; auto))).
      reflexivity. }
  unfold run. rewrite (bind_some _ _ _ _ _ Hren).
  rewrite (bind_some _ _ _ _ _ (discover_eq cfg w)).
  rewrite filter_none; [reflexivity|].
  intros p Hp. apply in_sorted, filter_In in Hp. destruct Hp as [Hp Hpdf].
  apply negb_false_iff, in_existsb_str, Hall; assumption.
Qed.
(* ================================================================= *)
(** ** The theorems at concrete inputs *)

(** The scenario of two documents, one whose extraction gives three
    records and one whose extraction times out. *)
Example run_two_documents :
  exists w,
    run demo_cfg demo_ext 2 None two_documents = Some (tt, w)
    /\ processed (checkpoint w) = [py "a.pdf"]
    /\ stats (checkpoint w) = [(py "a.pdf", mkStat 3 (py "T3"))]
    /\ failed (checkpoint w)
       = [mkFail (py "b.pdf") (py "Timeout of 300.0s exceeded") (py "T4")]
    /\ checkpoint_file w = Some (checkpoint w)
    /\ paths w = [in_papers "b.pdf";
                  joinpath (py "papers/processed_pdfs") (py "a.pdf")]
    /\ uploads w = [in_papers "b.pdf"; in_papers "a.pdf"].
Proof.
  eexists. split; [vm_compute; reflexivity|].
  vm_compute. repeat split.
Qed.

(** With the rename pass off, a folder whose only document is in the
    processed list: the run handles no document. *)
Lemma processed_documents_are_skipped_witness :
  run demo_cfg demo_ext 0 None nothing_new = Some (tt, nothing_new)
  /\ uploads nothing_new = [].
Proof.
  destruct (processed_documents_are_skipped demo_cfg demo_ext nothing_new)
    as (_ & _ & Hrun).
  destruct (Hrun 0 None 0 nothing_new eq_refl) as (H & _).
  - intros p Hp _. vm_compute in Hp. destruct Hp as [<-|[]].
    vm_compute. left; reflexivity.
  - split; [exact H | reflexivity].
Defined.

(** C1.  The run at a folder with no new document.  The only PDF of the
    folder is in the processed list, and [_is_processed] says so; yet with
    the rename pass on, as it is by default, the pass renames the document
    (whose name it built itself on an earlier run), the discovery step lists
    the new name as unprocessed, and the document is uploaded and marked
    processed a second time.  At the same folder with a name that starts
    like a DOI, the run does nothing. *)
Theorem run_reprocesses_a_processed_no_doi_document :
  paths processed_no_doi = [in_papers "NO_DOI - Deep Learning.pdf"]
  /\ processed (checkpoint processed_no_doi) = [py "NO_DOI - Deep Learning.pdf"]
  /\ _is_processed (py "NO_DOI - Deep Learning.pdf") processed_no_doi
     = Some (true, processed_no_doi)
  /\ (exists w',
        run rename_cfg ready_ext 2 None processed_no_doi = Some (tt, w')
        /\ uploads w' = [in_papers "NO_DOI - Deep Learning (2).pdf"]
        /\ processed (checkpoint w')
           = [py "NO_DOI - Deep Learning.pdf";
              py "NO_DOI - Deep Learning (2).pdf"])
  /\ run rename_cfg ready_ext 2 None processed_doi = Some (tt, processed_doi).
Proof.
  split; [reflexivity|]. split; [reflexivity|].
  split; [vm_compute; reflexivity|]. split.
  - eexists. split; [vm_compute; reflexivity|].
    split; vm_compute; reflexivity.
  - vm_compute. reflexivity.
Qed.

(** C2 on a sequence that marks one document twice and fails another
    twice. *)
Example checkpoint_calls_demo :
  exists w,
    calls demo_ext demo_calls (world_of [] empty_checkpoint) = Some (tt, w)
    /\ processed (checkpoint w) = [py "a.pdf"]
    /\ map pdf (failed (checkpoint w)) = [py "b.pdf"; py "b.pdf"]
    /\ checkpoint_file w = Some (checkpoint w).
Proof.
  eexists. split; [vm_compute; reflexivity|]. vm_compute. repeat split.
Qed.

Lemma checkpoint_calls_invariants_witness :
  NoDup (processed (checkpoint (world_of [] empty_checkpoint)))
  /\ exists w,
      calls demo_ext demo_calls (world_of [] empty_checkpoint) = Some (tt, w)
      /\ NoDup (processed (checkpoint w))
      /\ length (failed (checkpoint w)) = 2.
Proof.
  assert (H0 : NoDup (processed (checkpoint (world_of [] empty_checkpoint))))
    by constructor.
  split; [exact H0|].
  destruct (checkpoint_calls_invariants demo_ext demo_calls
              (world_of [] empty_checkpoint))
    as (w & added & recs & E & _ & _ & _ & Hnd & _ & Hf & _ & Hlen & _).
  exists w. split; [exact E|]. split; [exact (Hnd H0)|].
  rewrite Hf, length_app, Hlen. reflexivity.
Defined.

(** C3 at a reply that is no JSON: the document fails as a whole. *)
Lemma parse_response_shapes_witness :
  exists w2,
    process_pdf demo_cfg demo_ext 1 (in_papers "c.pdf") (one_of "c.pdf")
    = Some (None, w2)
    /\ map pdf (failed (checkpoint w2)) = [py "c.pdf"].
Proof.
  destruct (parse_response_shapes demo_cfg demo_ext
              (py "I could not read this document."))
    as (_ & _ & _ & _ & Hfail & _).
  destruct (Hfail 1 (in_papers "c.pdf") (one_of "c.pdf")
              (set_slept (set_uploads (one_of "c.pdf") [in_papers "c.pdf"]) 1)
              (py "Expecting value: line 1 column 1 (char 0)"))
    as (w2 & E & _ & Hf).
  - vm_compute. left; reflexivity.
  - reflexivity.
  - vm_compute. reflexivity.
  - discriminate.
  - vm_compute. reflexivity.
  - exists w2. split; [exact E|]. rewrite Hf. reflexivity.
Defined.

(** C4 as stated fails: a service that needs 400 seconds is waited for,
    400 seconds long, and no time-out is raised; a service that never
    leaves [PROCESSING] is waited for without end. *)
Lemma wait_has_no_timeout :
  (exists w',
      _process_with_gemini demo_ext 400 (in_papers "slow.pdf") (one_of "slow.pdf")
      = Some (Ok (py "{}"), w')
      /\ slept w' = 400
      /\ 300 < slept w')
  /\ (forall fuel,
        _process_with_gemini demo_ext fuel (in_papers "stuck.pdf")
                             (one_of "stuck.pdf")
        = None).
Proof.
  split.
  - exists (set_slept (set_uploads (one_of "slow.pdf") [in_papers "slow.pdf"]) 400).
    split; [vm_compute; reflexivity|]. split; [reflexivity | simpl; lia].
  - intros fuel. apply process_with_gemini_stuck.
    intros [|i]; reflexivity.
Qed.

Lemma slow_reported (i : nat) :
  reported (service demo_ext (length (uploads (one_of "slow.pdf")))
                    (in_papers "slow.pdf")) i
  = Ok (if i <? 400 then PROCESSING else ACTIVE).
Proof. destruct i; reflexivity. Qed.

(** C4 (as amended) at the service that needs 400 polls. *)
Lemma wait_ends_only_when_service_leaves_processing_witness :
  wait_while_processing 400
    (service demo_ext 0 (in_papers "slow.pdf")) 0 PROCESSING (one_of "slow.pdf")
  = Some (Ok ACTIVE, set_slept (one_of "slow.pdf") 400).
Proof.
  destruct (wait_ends_only_when_service_leaves_processing
              demo_ext (in_papers "slow.pdf") (one_of "slow.pdf"))
    as (Hleave & _).
  apply (Hleave 400 PROCESSING ACTIVE).
  - reflexivity.
  - intros i Hi. rewrite slow_reported.
    destruct (Nat.ltb_spec i 400); [reflexivity | lia].
  - rewrite slow_reported. reflexivity.
  - discriminate.
  - lia.
Defined.

(** C5.  The rename pass at a folder it has normalised itself.  The name
    [NO_DOI - Deep Learning.pdf] is the one the pass builds for a document
    without identifier; the skip test does not match it; so a second pass
    builds the same name again, finds it taken by the document itself and
    renames the document to [NO_DOI - Deep Learning (2).pdf], and a third
    pass renames it back.  The document whose name starts like a DOI is left
    alone. *)
Theorem rename_pass_renames_no_doi_names_again :
  canonical_name demo_ext None (py "Deep Learning")
  = py "NO_DOI - Deep Learning.pdf"
  /\ matches_doi_prefix demo_ext (py "NO_DOI - Deep Learning.pdf") = false
  /\ exists w1,
      rename_input_pdfs rename_cfg demo_ext 3 normalised = Some (1, w1)
      /\ paths w1 = [in_papers "NO_DOI - Deep Learning (2).pdf";
                     in_papers "10.1000abc123 - Graph Theory.pdf"]
      /\ option_map (fun r => (fst r, paths (snd r)))
                    (rename_input_pdfs rename_cfg demo_ext 3 w1)
         = Some (1, [in_papers "NO_DOI - Deep Learning.pdf";
                     in_papers "10.1000abc123 - Graph Theory.pdf"]).
Proof.
  split; [vm_compute; reflexivity|]. split; [vm_compute; reflexivity|].
  eexists. split; [vm_compute; reflexivity|].
  split; vm_compute; reflexivity.
Qed.

(** The rename pass at a folder whose names all start like a DOI, where
    it renames nothing, and at the normalised folder, where the path
    chosen for the first document is not the path of the document the loop
    has still to visit. *)
Lemma rename_pass_skips_doi_prefixed_names_witness :
  rename_input_pdfs rename_cfg demo_ext 0 only_doi_names = Some (0, only_doi_names)
  /\ ~ In (in_papers "NO_DOI - Deep Learning (2).pdf")
          [in_papers "10.1000abc123 - Graph Theory.pdf"].
Proof.
  split.
  - destruct (rename_pass_skips_doi_prefixed_names rename_cfg demo_ext
                only_doi_names) as (_ & _ & Hnone & _).
    apply Hnone. intros p Hp. vm_compute in Hp. destruct Hp as [<-|[]].
    reflexivity.
  - destruct (rename_pass_skips_doi_prefixed_names rename_cfg demo_ext
                normalised) as (_ & _ & _ & _ & Honce).
    assert (Hnd : NoDup (paths normalised)) by (repeat constructor; not_on_disk).
    destruct (Honce Hnd 3 []
                (in_papers "NO_DOI - Deep Learning.pdf")
                [in_papers "10.1000abc123 - Graph Theory.pdf"]
                ([], 0) ([], 0) normalised
                (None, py "Deep Learning")
                (in_papers "NO_DOI - Deep Learning (2).pdf")
                normalised) as (_ & _ & H).
    + vm_compute. reflexivity.
    + reflexivity.
    + vm_compute. reflexivity.
    + exact H.
Defined.

(** C6 as stated fails for a bound below the length of the placeholder. *)
Lemma clean_filename_placeholder_exceeds_small_bound :
  clean_filename id_norm (py "...") 5 = py "Untitled"
  /\ (5 < Z.of_nat (length (clean_filename id_norm (py "...") 5)))%Z.
Proof. split; vm_compute; reflexivity. Qed.

(** C6 (as amended) at a title that has to be cut. *)
Lemma clean_filename_safe_bounded_witness :
  (8 <= 20)%Z
  /\ clean_filename id_norm long_title 20 = py "Deep learning for"
  /\ (Z.of_nat (length (clean_filename id_norm long_title 20)) <= 20)%Z
  /\ Forall (fun c => ~ In c invalid_chars) (clean_filename id_norm long_title 20).
Proof.
  assert (H8 : (8 <= 20)%Z) by lia.
  pose proof (clean_filename_safe_bounded id_norm long_title 20 H8) as H.
  cbv zeta in H. destruct H as (Hok & Hlen & _).
  split; [exact H8|]. split; [vm_compute; reflexivity|].
  split; assumption.
Defined.

(** C7 after two collisions: the third name is returned. *)
Lemma get_unique_path_spec_witness :
  get_unique_path 3 (in_papers "a.pdf") taken_twice
  = Some (in_papers "a (3).pdf", taken_twice).
Proof.
  destruct (get_unique_path_spec taken_twice (in_papers "a.pdf"))
    as (r & Hfuel & _ & _ & _ & HN).
  rewrite (Hfuel 3 ltac:(simpl; lia)).
  rewrite (HN 2).
  - vm_compute. reflexivity.
  - lia.
  - vm_compute. left; reflexivity.
  - intros m Hm. assert (m = 2) by lia. subst m.
    vm_compute. right; left; reflexivity.
  - not_on_disk.
Defined.

(** C8 at a record that names [provider] itself. *)
Lemma add_metadata_provenance_witness :
  Forall (fun d => NoDup (keys d)) [colliding_record]
  /\ exists records w',
      add_metadata demo_cfg demo_ext (py "a.pdf") (map JDict [colliding_record])
                   (one_of "a.pdf")
      = Some (Ok records, w')
      /\ length records = 1.
Proof.
  assert (Hnd : Forall (fun d => NoDup (keys d)) [colliding_record]).
  { repeat constructor; not_on_disk. }
  split; [exact Hnd|].
  destruct (add_metadata_provenance demo_cfg demo_ext (py "a.pdf")
              [colliding_record] (one_of "a.pdf") Hnd)
    as (records & w' & E & Hlen & _).
  exists records, w'. split; assumption.
Defined.

Example add_metadata_collision :
  add_metadata demo_cfg demo_ext (py "a.pdf") [JDict colliding_record]
               (one_of "a.pdf")
  = Some (Ok [[ (py "source_pdf", JString (py "a.pdf"));
                (py "extracted_at", JString (py "T0"));
                (py "provider", JString (py "by hand"));
                (py "material", JString (py "TiO2"));
                (py "bandgap", JFloat (py "3.2")) ]],
          set_clock_reads (one_of "a.pdf") 1).
Proof. vm_compute. reflexivity. Qed.

(** C9: a limit of 1 cuts the candidates, a limit of 0 does not. *)
Example limit_zero_and_one :
  limit (Some 1%Z) [in_papers "a.pdf"; in_papers "b.pdf"] = [in_papers "a.pdf"]
  /\ limit (Some 0%Z) [in_papers "a.pdf"; in_papers "b.pdf"]
     = [in_papers "a.pdf"; in_papers "b.pdf"].
Proof. split; reflexivity. Qed.

(** C10 at a path that is not in the folder. *)
Lemma process_pdf_missing_file_witness :
  ~ on_disk two_documents (in_papers "missing.pdf")
  /\ process_pdf demo_cfg demo_ext 0 (in_papers "missing.pdf") two_documents
     = Some (None, two_documents).
Proof.
  assert (Hoff : ~ on_disk two_documents (in_papers "missing.pdf"))
    by not_on_disk.
  split; [exact Hoff|].
  destruct (process_pdf_missing_file demo_cfg demo_ext 0
              (in_papers "missing.pdf") two_documents Hoff)
    as (w' & E & -> & _).
  exact E.
Defined.

(** The string operations on small inputs, as Python evaluates them. *)
Example clean_filename_examples :
  clean_filename id_norm (py "  Deep:   learning/ for  materials. ") 100
  = py "Deep learning for materials"
  /\ clean_filename id_norm (py "hello world foo") 11 = py "hello"
  /\ clean_filename id_norm (py "hello world foo") 4 = py "hell"
  /\ clean_filename id_norm (py "hello world foo") (-1) = py "hello world"
  /\ clean_filename id_norm (py "?*|") 100 = py "Untitled".
Proof. repeat split; vm_compute; reflexivity. Qed.

Example strip_fences_examples :
  strip_fences (py "```json [{}, {}, {}] ```") = py "[{}, {}, {}]"
  /\ strip_fences (py "Here it is: ``` {} ``` as asked") = py "{}"
  /\ strip_fences (py "  42 ") = py "42"
  /\ split (py "a```b```") (py "```") = [py "a"; py "b"; []].
Proof. repeat split; vm_compute; reflexivity. Qed.

Example path_examples :
  stem (in_papers "a.b.pdf") = py "a.b"
  /\ suffix (in_papers "a.b.pdf") = py ".pdf"
  /\ suffix (in_papers ".hidden") = []
  /\ numbered (in_papers "a.pdf") 12 = in_papers "a (12).pdf"
  /\ sorted [in_papers "b.pdf"; in_papers "a.pdf"; in_papers "B.pdf"]
     = [in_papers "B.pdf"; in_papers "a.pdf"; in_papers "b.pdf"].
Proof. repeat split; vm_compute; reflexivity. Qed.
